(** * The per-realm routing core of crossbar: [crossbar/router/router.py]

    A shallow embedding of the classes [Router] and [RouterFactory] and the
    properties of their session, role and realm life cycles.

    Python objects are mutable and methods may raise after having mutated
    them, so every method is a computation in a state-and-exception monad:
    it maps the state before the call to an outcome (a value or a raised
    exception) together with the state after the call.  Dictionaries are
    stdpp [gmap]s.  The collaborators whose code lives in other modules
    (Broker, Dealer, the role classes, the realm stores) are reached through
    interfaces, and every call that leaves this file's code is recorded in a
    call log so that "is invoked" and "exactly once" can be stated. *)

From stdpp Require Import gmap strings list fin_maps pretty.

Local Open Scope Z_scope.
Local Open Scope string_scope.

(** ** Exceptions and the state-and-exception monad *)

(** The exceptions the module raises or lets through. [Exception] is the
    bare [Exception(msg)] the source raises with a formatted message;
    [KeyError] comes from a failed dictionary subscript, [AttributeError]
    from reading an attribute the object does not have, [AssertionError]
    from a failed [assert], [TypeError] from an item assignment on a value
    that is not a dictionary.  [NoSuchObject] is not a Python exception: it
    is the outcome of a method call on an object identity that was never
    allocated, a reference no Python program can form. *)
Inductive exn : Type :=
| Exception (msg : string)
| AssertionError
| KeyError (key : string)
| AttributeError (attr : string)
| TypeError (msg : string)
| ProtocolError (msg : string)
| NoSuchObject.

Inductive Result (A : Type) : Type :=
| Ok (a : A)
| Raise (e : exn).
Arguments Ok {A} a.
Arguments Raise {A} e.

Definition M (S A : Type) : Type := S -> Result A * S.

Definition ret {S A} (a : A) : M S A := fun s => (Ok a, s).

Definition raise {S A} (e : exn) : M S A := fun s => (Raise e, s).

Definition bind {S A B} (m : M S A) (k : A -> M S B) : M S B :=
  fun s => match m s with
           | (Ok a, s') => k a s'
           | (Raise e, s') => (Raise e, s')
           end.

Definition get_state {S} : M S S := fun s => (Ok s, s).

Definition modify {S} (f : S -> S) : M S unit := fun s => (Ok tt, f s).

(** [assert(c)]. *)
Definition assert {S} (c : bool) : M S unit :=
  if c then ret tt else raise AssertionError.

(** Runs a computation on a component of the state (an attribute that holds
    another object), writing the component back also when it raises. *)
Definition zoom {S T A} (rd : S -> T) (wr : T -> S -> S) (m : M T A) : M S A :=
  fun s => let '(r, t') := m (rd s) in (r, wr t' s).

Notation "x <- c1 ;; c2" := (bind c1 (fun x => c2))
  (at level 100, c1 at next level, right associativity).
Notation "c1 ;; c2" := (bind c1 (fun _ => c2))
  (at level 100, right associativity).

Definition is_ok {A} (r : Result A) : bool :=
  match r with Ok _ => true | Raise _ => false end.

(** ** Values that cross the interfaces *)

(** Python values that occur as authorization results and inside them. *)
Inductive pyval : Type :=
| PyNone
| PyBool (b : bool)
| PyInt (n : Z)
| PyStr (s : string).

(** What a role's [authorize] resolves to: a bare value (the legacy form is
    a [bool]) or a dictionary. *)
Inductive authorization : Type :=
| AuthValue (v : pyval)
| AuthDict (d : gmap string pyval).

(** The outcome of a txaio future once it has fired: its callbacks run on a
    success and are skipped on a failure. *)
Inductive Future (A : Type) : Type :=
| FutureSuccess (a : A)
| FutureFailure (e : exn).
Arguments FutureSuccess {A} a.
Arguments FutureFailure {A} e.

(** [d.addCallback(f)]: a callback that raises turns the success into a
    failure. *)
Definition addCallback {A B} (f : A -> Result B) (d : Future A) : Future B :=
  match d with
  | FutureSuccess a =>
      match f a with
      | Ok b => FutureSuccess b
      | Raise e => FutureFailure e
      end
  | FutureFailure e => FutureFailure e
  end.

(** Modelled from the spec: the session capability contract (a stable
    integer session identifier, an authid, an authrole and, optionally, the
    marker of a client session).  The session classes are not part of
    [router.py]; [_session_details] is [None] when the object has no such
    attribute, which is what [hasattr] tests. *)
Record SessionDetails : Type := { details_realm : string }.

Record Session : Type := {
  _session_id : Z;
  _authid : string;
  _authrole : string;
  _session_details : option SessionDetails
}.

(** Modelled from the spec: the message kinds of [autobahn.wamp.message].
    The classes do not inherit from one another, so [isinstance] is a test
    on the class; [request_type] is the attribute of an [Error] message that
    names the kind of request it answers. *)
Inductive MessageClass : Type :=
| Hello | Welcome | Abort | Challenge | Authenticate | Goodbye
| Error | Publish | Published | Subscribe | Subscribed
| Unsubscribe | Unsubscribed | Event | Call | Cancel | Result_
| Register | Registered | Unregister | Unregistered
| Invocation | Interrupt | Yield.

Record Message : Type := {
  msg_class : MessageClass;
  request_type : Z;
  msg_fields : list string
}.

(** [message.Invocation.MESSAGE_TYPE], the WAMP message code of INVOCATION. *)
Definition Invocation_MESSAGE_TYPE : Z := 68.

Definition class_name (c : MessageClass) : string :=
  match c with
  | Hello => "Hello" | Welcome => "Welcome" | Abort => "Abort"
  | Challenge => "Challenge" | Authenticate => "Authenticate"
  | Goodbye => "Goodbye" | Error => "Error" | Publish => "Publish"
  | Published => "Published" | Subscribe => "Subscribe"
  | Subscribed => "Subscribed" | Unsubscribe => "Unsubscribe"
  | Unsubscribed => "Unsubscribed" | Event => "Event" | Call => "Call"
  | Cancel => "Cancel" | Result_ => "Result" | Register => "Register"
  | Registered => "Registered" | Unregister => "Unregister"
  | Unregistered => "Unregistered" | Invocation => "Invocation"
  | Interrupt => "Interrupt" | Yield => "Yield"
  end.

(** Modelled from the spec: [RouterOptions] of [crossbar.router], of which
    the source only shows the [uri_check] argument and its loose setting. *)
Inductive UriCheck : Type := URI_CHECK_STRICT | URI_CHECK_LOOSE.

Record RouterOptions : Type := { uri_check : option UriCheck }.

(** [RouterOptions()]. *)
Definition RouterOptions_default : RouterOptions := {| uri_check := None |}.

(** Modelled from the spec: the realm configuration consumed by
    [start_realm], [{name, store?: {type, ...}, mqtt_payload_format?}], and
    the [RouterRealm] object that carries it in its [config] attribute. *)
Record StoreConfig : Type := { store_type : string }.

Record RealmConfig : Type := {
  cfg_name : string;
  cfg_store : option StoreConfig;
  cfg_mqtt_payload_format : option string
}.

Record RouterRealm : Type := { config : RealmConfig }.

(** Modelled from the spec: the realm stores of [crossbar.router.realmstore],
    of which the core only needs to know which variant was built. *)
Inductive RealmStore : Type :=
| LmdbRealmStore (c : StoreConfig)
| MemoryRealmStore (c : StoreConfig).

(** The [realm] argument of [Router.__init__] is a [RouterRealm] when it
    comes from [start_realm] and the realm URI itself, a string, when it
    comes from [RouterFactory.get]. *)
Inductive RealmArg : Type :=
| RealmObject (r : RouterRealm)
| RealmUri (uri : string).

(** A role: its URI and its [authorize] capability, which resolves to a raw
    authorization or fails. *)
Record Role : Type := {
  uri : string;
  authorize : Session -> string -> string -> Future authorization
}.

(** Modelled from the spec: the role classes of [crossbar.router.role].  The
    trusted role allows unconditionally, the default role answers its
    [allow_by_default] flag; the static and the dynamic role decide from a
    permission table and through an external procedure, which the core does
    not look into and which are kept as the decision function. *)
Definition RouterTrustedRole (u : string) : Role :=
  {| uri := u; authorize := fun _ _ _ => FutureSuccess (AuthValue (PyBool true)) |}.

Definition RouterRole (u : string) (allow_by_default : bool) : Role :=
  {| uri := u;
     authorize := fun _ _ _ => FutureSuccess (AuthValue (PyBool allow_by_default)) |}.

Definition Authorizer : Type := Session -> string -> string -> Future authorization.

Definition RouterRoleStaticAuth (u : string) (permissions : Authorizer) : Role :=
  {| uri := u; authorize := permissions |}.

Definition RouterRoleDynamicAuth (u : string) (authorizer : Authorizer) : Role :=
  {| uri := u; authorize := authorizer |}.

(** Modelled from the spec: the role configuration consumed by
    [RouterFactory.add_role]. *)
Record RoleConfig : Type := {
  role_name : string;
  role_permissions : option Authorizer;
  role_authorizer : option Authorizer;
  role_allow_by_default : option bool
}.

(** The role features a sub-engine advertises. *)
Definition RoleFeatures : Type := list string.

(** ** The Broker and Dealer interfaces

    The router reaches its two sub-engines only through these methods.  An
    engine is any state with such transitions; what the transitions do is
    outside the core. *)
Class BrokerClass (B : Type) : Type := {
  Broker_init : RouterOptions -> B;
  Broker_attach : Session -> B -> B;
  Broker_detach : Session -> B -> B;
  Broker_processPublish : Session -> Message -> B -> B;
  Broker_processSubscribe : Session -> Message -> B -> B;
  Broker_processUnsubscribe : Session -> Message -> B -> B;
  Broker_role_features : B -> RoleFeatures
}.

Class DealerClass (D : Type) : Type := {
  Dealer_init : RouterOptions -> D;
  Dealer_attach : Session -> D -> D;
  Dealer_detach : Session -> D -> D;
  Dealer_processRegister : Session -> Message -> D -> D;
  Dealer_processUnregister : Session -> Message -> D -> D;
  Dealer_processCall : Session -> Message -> D -> D;
  Dealer_processCancel : Session -> Message -> D -> D;
  Dealer_processYield : Session -> Message -> D -> D;
  Dealer_processInvocationError : Session -> Message -> D -> D;
  Dealer_role_features : D -> RoleFeatures
}.

(** The calls that leave the code of [router.py], and the one call from a
    router back into its factory. *)
Inductive CallEvent : Type :=
| call_Broker_attach (s : Session)
| call_Broker_detach (s : Session)
| call_Broker_processPublish (s : Session) (m : Message)
| call_Broker_processSubscribe (s : Session) (m : Message)
| call_Broker_processUnsubscribe (s : Session) (m : Message)
| call_Dealer_attach (s : Session)
| call_Dealer_detach (s : Session)
| call_Dealer_processRegister (s : Session) (m : Message)
| call_Dealer_processUnregister (s : Session) (m : Message)
| call_Dealer_processCall (s : Session) (m : Message)
| call_Dealer_processCancel (s : Session) (m : Message)
| call_Dealer_processYield (s : Session) (m : Message)
| call_Dealer_processInvocationError (s : Session) (m : Message)
| call_Role_authorize (role : string) (s : Session) (u action : string)
| call_Transport_send (s : Session) (m : Message)
| call_log_info (direction : string) (m : Message)
| call_Factory_onLastDetach (realm : string).

(** ** The objects of [router.py] *)

(** A [Router].  The attribute [_factory] is not a field: a world holds one
    factory (see [World]), every router in it was made by that factory with
    itself as [factory] argument, and the state a router method runs on
    carries that factory next to the router. *)
Record Router (B D : Type) : Type := {
  _options : RouterOptions;
  _store : option RealmStore;
  _realm : RouterRealm;
  realm : string;
  _trace_traffic : bool;
  _trace_traffic_roles_include : option (list string);
  _trace_traffic_roles_exclude : option (list string);
  _session_id_to_session : gmap Z Session;
  _broker : B;
  _dealer : D;
  _attached : Z;
  _mqtt_payload_format : option string;
  _roles : gmap string Role
}.
Arguments _options {B D} _.
Arguments _store {B D} _.
Arguments _realm {B D} _.
Arguments realm {B D} _.
Arguments _trace_traffic {B D} _.
Arguments _trace_traffic_roles_include {B D} _.
Arguments _trace_traffic_roles_exclude {B D} _.
Arguments _session_id_to_session {B D} _.
Arguments _broker {B D} _.
Arguments _dealer {B D} _.
Arguments _attached {B D} _.
Arguments _mqtt_payload_format {B D} _.
Arguments _roles {B D} _.

(** The identity of a router object: its index in the world's object store. *)
Definition oid : Type := nat.

(** A [RouterFactory].  [_routers] maps a realm URI to the router object
    registered for it; its default options are the attribute [_options] of
    the source, renamed because a router has an attribute of that name. *)
Record RouterFactory : Type := {
  _routers : gmap string oid;
  _factory_options : RouterOptions;
  _auto_create_realms : bool
}.

Definition set_routers (f : gmap string oid -> gmap string oid)
    (fac : RouterFactory) : RouterFactory :=
  {| _routers := f (_routers fac);
     _factory_options := _factory_options fac;
     _auto_create_realms := _auto_create_realms fac |}.

(** [d[k]] and [del d[k]] on a dictionary with string keys. *)
Definition getitem {V} (k : string) (d : gmap string V) : Result V :=
  match d !! k with
  | Some v => Ok v
  | None => Raise (KeyError k)
  end.

Definition delitem {V} (k : string) : M (gmap string V) unit :=
  fun d => match d !! k with
           | Some _ => (Ok tt, delete k d)
           | None => (Raise (KeyError k), d)
           end.

(** [RouterFactory.onLastDetach], the callback a router makes when its last
    session has detached.  It is defined ahead of the other factory methods
    because [Router.detach] calls it. *)
Definition RouterFactory_onLastDetach {B D} (router : Router B D)
    : M RouterFactory unit :=
  self <- get_state ;;
  assert (bool_decide (realm router ∈ dom (_routers self))) ;;
  zoom _routers (fun d => set_routers (fun _ => d)) (delitem (realm router)).

Definition _is_client_session (session : Session) : bool :=
  match _session_details session with
  | Some _ => true
  | None => false
  end.

(** Truth value of an attribute that is [None] or a list. *)
Definition truthy {A} (l : option (list A)) : bool :=
  match l with
  | Some (_ :: _) => true
  | _ => false
  end.

Definition contains {A} `{EqDecision A} (x : A) (l : option (list A)) : bool :=
  match l with
  | Some l => bool_decide (x ∈ l)
  | None => false
  end.

#[global] Instance MessageClass_eq_dec : EqDecision MessageClass.
Proof. solve_decision. Defined.

Definition isinstance (msg : Message) (c : MessageClass) : bool :=
  bool_decide (msg_class msg = c).

(** [str(msg.__class__)]. *)
Definition class_repr (msg : Message) : string :=
  "<class 'autobahn.wamp.message." +:+ class_name (msg_class msg) +:+ "'>".

Module Router.
Section Methods.
Context {B D : Type} `{!BrokerClass B, !DealerClass D}.

(** The state a method of a router runs on: the router, the factory that
    owns it, and the log of the calls made so far. *)
Record Env : Type := {
  self : Router B D;
  factory : RouterFactory;
  calls : list CallEvent
}.

Definition set_self (f : Router B D -> Router B D) (e : Env) : Env :=
  {| self := f (self e); factory := factory e; calls := calls e |}.

Definition set_factory (f : RouterFactory) (e : Env) : Env :=
  {| self := self e; factory := f; calls := calls e |}.

Definition log_call (c : CallEvent) : M Env unit :=
  modify (fun e => {| self := self e; factory := factory e;
                      calls := calls e ++ [c] |}).

Definition with_sessions (f : gmap Z Session -> gmap Z Session)
    (r : Router B D) : Router B D :=
  {| _options := _options r; _store := _store r; _realm := _realm r;
     realm := realm r; _trace_traffic := _trace_traffic r;
     _trace_traffic_roles_include := _trace_traffic_roles_include r;
     _trace_traffic_roles_exclude := _trace_traffic_roles_exclude r;
     _session_id_to_session := f (_session_id_to_session r);
     _broker := _broker r; _dealer := _dealer r; _attached := _attached r;
     _mqtt_payload_format := _mqtt_payload_format r; _roles := _roles r |}.

Definition with_broker (f : B -> B) (r : Router B D) : Router B D :=
  {| _options := _options r; _store := _store r; _realm := _realm r;
     realm := realm r; _trace_traffic := _trace_traffic r;
     _trace_traffic_roles_include := _trace_traffic_roles_include r;
     _trace_traffic_roles_exclude := _trace_traffic_roles_exclude r;
     _session_id_to_session := _session_id_to_session r;
     _broker := f (_broker r); _dealer := _dealer r;
     _attached := _attached r;
     _mqtt_payload_format := _mqtt_payload_format r; _roles := _roles r |}.

Definition with_dealer (f : D -> D) (r : Router B D) : Router B D :=
  {| _options := _options r; _store := _store r; _realm := _realm r;
     realm := realm r; _trace_traffic := _trace_traffic r;
     _trace_traffic_roles_include := _trace_traffic_roles_include r;
     _trace_traffic_roles_exclude := _trace_traffic_roles_exclude r;
     _session_id_to_session := _session_id_to_session r;
     _broker := _broker r; _dealer := f (_dealer r);
     _attached := _attached r;
     _mqtt_payload_format := _mqtt_payload_format r; _roles := _roles r |}.

Definition with_attached (f : Z -> Z) (r : Router B D) : Router B D :=
  {| _options := _options r; _store := _store r; _realm := _realm r;
     realm := realm r; _trace_traffic := _trace_traffic r;
     _trace_traffic_roles_include := _trace_traffic_roles_include r;
     _trace_traffic_roles_exclude := _trace_traffic_roles_exclude r;
     _session_id_to_session := _session_id_to_session r;
     _broker := _broker r; _dealer := _dealer r;
     _attached := f (_attached r);
     _mqtt_payload_format := _mqtt_payload_format r; _roles := _roles r |}.

Definition with_roles (f : gmap string Role -> gmap string Role)
    (r : Router B D) : Router B D :=
  {| _options := _options r; _store := _store r; _realm := _realm r;
     realm := realm r; _trace_traffic := _trace_traffic r;
     _trace_traffic_roles_include := _trace_traffic_roles_include r;
     _trace_traffic_roles_exclude := _trace_traffic_roles_exclude r;
     _session_id_to_session := _session_id_to_session r;
     _broker := _broker r; _dealer := _dealer r; _attached := _attached r;
     _mqtt_payload_format := _mqtt_payload_format r;
     _roles := f (_roles r) |}.

(** A call of a Broker or Dealer method: the engine's transition, and the
    call in the log. *)
Definition broker_call (c : CallEvent) (f : B -> B) : M Env unit :=
  log_call c ;; modify (set_self (with_broker f)).

Definition dealer_call (c : CallEvent) (f : D -> D) : M Env unit :=
  log_call c ;; modify (set_self (with_dealer f)).

Definition RESERVED_ROLES : list string := ["trusted"].

(** [Router.__init__].  Reading [realm.config] raises when [realm] is not
    an object with that attribute. *)
Definition __init__ (realm_ : RealmArg) (options : option RouterOptions)
    (store : option RealmStore) (mqtt_payload_format : option string)
    : Result (Router B D) :=
  let options_ := default RouterOptions_default options in
  match realm_ with
  | RealmUri _ => Raise (AttributeError "config")
  | RealmObject r =>
      Ok {| _options := options_;
            _store := store;
            _realm := r;
            realm := cfg_name (config r);
            _trace_traffic := false;
            _trace_traffic_roles_include := None;
            _trace_traffic_roles_exclude := Some ["trusted"];
            _session_id_to_session := ∅;
            _broker := Broker_init options_;
            _dealer := Dealer_init options_;
            _attached := 0;
            _mqtt_payload_format := mqtt_payload_format;
            _roles := {[ "trusted" := RouterTrustedRole "trusted" ]} |}
  end.

(** [Router.attach]: the result is the dictionary of the two role-feature
    sets. *)
Definition attach (session : Session) : M Env (gmap string RoleFeatures) :=
  st <- get_state ;;
  match _session_id_to_session (self st) !! _session_id session with
  | None =>
      if _is_client_session session
      then modify (set_self (with_sessions <[_session_id session := session]>))
      else ret tt
  | Some _ =>
      raise (Exception ("session with ID " +:+ pretty (_session_id session)
                        +:+ " already attached"))
  end ;;
  broker_call (call_Broker_attach session) (Broker_attach session) ;;
  dealer_call (call_Dealer_attach session) (Dealer_attach session) ;;
  modify (set_self (with_attached (fun n => n + 1))) ;;
  st <- get_state ;;
  ret (<["dealer" := Dealer_role_features (_dealer (self st))]>
         (<["broker" := Broker_role_features (_broker (self st))]> ∅)).

(** [Router.detach]; [if not self._attached] is the test of the counter
    against zero. *)
Definition detach (session : Session) : M Env unit :=
  broker_call (call_Broker_detach session) (Broker_detach session) ;;
  dealer_call (call_Dealer_detach session) (Dealer_detach session) ;;
  st <- get_state ;;
  match _session_id_to_session (self st) !! _session_id session with
  | Some _ =>
      modify (set_self (with_sessions (delete (_session_id session))))
  | None =>
      if _is_client_session session
      then raise (Exception ("session with ID " +:+ pretty (_session_id session)
                             +:+ " not attached"))
      else ret tt
  end ;;
  modify (set_self (with_attached (fun n => n - 1))) ;;
  st <- get_state ;;
  if negb (bool_decide (_attached (self st) ≠ 0))
  then log_call (call_Factory_onLastDetach (realm (self st))) ;;
       zoom factory set_factory (RouterFactory_onLastDetach (self st))
  else ret tt.

Definition _check_trace (r : Router B D) (session : Session) (msg : Message)
    : bool :=
  if negb (_trace_traffic r) then false
  else if truthy (_trace_traffic_roles_include r)
          && negb (contains (_authrole session) (_trace_traffic_roles_include r))
  then false
  else if truthy (_trace_traffic_roles_exclude r)
          && contains (_authrole session) (_trace_traffic_roles_exclude r)
  then false
  else true.

(** [Router.send]; the transport is outside the core, the call is logged. *)
Definition send (session : Session) (msg : Message) : M Env unit :=
  st <- get_state ;;
  (if _check_trace (self st) session msg
   then log_call (call_log_info "<<TX<<" msg) else ret tt) ;;
  log_call (call_Transport_send session msg).

(** [Router.process], with the chain of [isinstance] tests in the order of
    the source. *)
Definition process (session : Session) (msg : Message) : M Env unit :=
  st <- get_state ;;
  (if _check_trace (self st) session msg
   then log_call (call_log_info ">>RX>>" msg) else ret tt) ;;
  if isinstance msg Publish then
    broker_call (call_Broker_processPublish session msg)
                (Broker_processPublish session msg)
  else if isinstance msg Subscribe then
    broker_call (call_Broker_processSubscribe session msg)
                (Broker_processSubscribe session msg)
  else if isinstance msg Unsubscribe then
    broker_call (call_Broker_processUnsubscribe session msg)
                (Broker_processUnsubscribe session msg)
  else if isinstance msg Register then
    dealer_call (call_Dealer_processRegister session msg)
                (Dealer_processRegister session msg)
  else if isinstance msg Unregister then
    dealer_call (call_Dealer_processUnregister session msg)
                (Dealer_processUnregister session msg)
  else if isinstance msg Call then
    dealer_call (call_Dealer_processCall session msg)
                (Dealer_processCall session msg)
  else if isinstance msg Cancel then
    dealer_call (call_Dealer_processCancel session msg)
                (Dealer_processCancel session msg)
  else if isinstance msg Yield then
    dealer_call (call_Dealer_processYield session msg)
                (Dealer_processYield session msg)
  else if isinstance msg Error
          && bool_decide (request_type msg = Invocation_MESSAGE_TYPE) then
    dealer_call (call_Dealer_processInvocationError session msg)
                (Dealer_processInvocationError session msg)
  else
    raise (ProtocolError ("Unexpected message " +:+ class_repr msg)).

Definition has_role (u : string) : M Env bool :=
  st <- get_state ;;
  ret (bool_decide (u ∈ dom (_roles (self st)))).

Definition add_role (role : Role) : M Env bool :=
  if bool_decide (uri role ∈ RESERVED_ROLES)
  then raise (Exception ("cannot add reserved role '" +:+ uri role +:+ "'"))
  else
    st <- get_state ;;
    let overwritten := bool_decide (uri role ∈ dom (_roles (self st))) in
    modify (set_self (with_roles <[uri role := role]>)) ;;
    ret overwritten.

Definition drop_role (role : Role) : M Env bool :=
  if bool_decide (uri role ∈ RESERVED_ROLES)
  then raise (Exception ("cannot drop reserved role '" +:+ uri role +:+ "'"))
  else
    st <- get_state ;;
    if bool_decide (uri role ∈ dom (_roles (self st)))
    then modify (set_self (with_roles (delete (uri role)))) ;; ret true
    else ret false.

(** [authorization[u'disclose'] = v]. *)
Definition setitem_disclose (v : bool) (a : authorization)
    : Result authorization :=
  match a with
  | AuthDict d => Ok (AuthDict (<["disclose" := PyBool v]> d))
  | AuthValue _ =>
      Raise (TypeError "object does not support item assignment")
  end.

(** The callback [got_authorization] of [authorize], closed over the
    session's role and the action. *)
Definition got_authorization (role action : string) (a : authorization)
    : Result authorization :=
  let a :=
    match a with
    | AuthValue (PyBool b) =>
        let d : gmap string pyval :=
          <["cache" := PyBool false]> (<["allow" := PyBool b]> ∅) in
        if bool_decide (action ∈ ["call"; "publish"])
        then AuthDict (<["disclose" := PyBool false]> d)
        else AuthDict d
    | _ => a
    end in
  let auto_disclose_trusted := false in
  if auto_disclose_trusted && bool_decide (role = "trusted")
     && bool_decide (action ∈ ["call"; "publish"])
  then setitem_disclose true a
  else Ok a.

(** The future [d] that [authorize] builds before it adds its callback:
    the answer of the session's role when the router has that role, and a
    fired [False] when it has not. *)
Definition raw_authorization (session : Session) (uri_ action : string)
    : M Env (Future authorization) :=
  let role := _authrole session in
  st <- get_state ;;
  match _roles (self st) !! role with
  | Some r =>
      log_call (call_Role_authorize role session uri_ action) ;;
      ret (authorize r session uri_ action)
  | None => ret (FutureSuccess (AuthValue (PyBool false)))
  end.

(** [Router.authorize].  [uri] is a text string by its type, so the first
    assertion of the source holds; the future it returns is given as the
    outcome it fires with. *)
Definition authorize (session : Session) (uri_ action : string)
    : M Env (Future authorization) :=
  assert true ;;
  assert (bool_decide (action ∈ ["call"; "register"; "publish"; "subscribe"])) ;;
  let role := _authrole session in
  d <- raw_authorization session uri_ action ;;
  ret (addCallback (got_authorization role action) d).

Definition validate (payload_type uri_ : string) : M Env unit := ret tt.
End Methods.
Arguments Env : clear implicits.
End Router.

(** ** The world: one factory and the routers it made *)

Record World (B D : Type) : Type := {
  the_factory : RouterFactory;
  objects : list (Router B D);
  history : list CallEvent
}.
Arguments the_factory {B D} _.
Arguments objects {B D} _.
Arguments history {B D} _.

Module RouterFactory.
Section Methods.
Context {B D : Type} `{!BrokerClass B, !DealerClass D}.

(** [HAS_LMDB] of [crossbar.router.realmstore]: whether this deployment
    has the LMDB backend. *)
Variable HAS_LMDB : bool.

Definition set_the_factory (f : RouterFactory) (w : World B D) : World B D :=
  {| the_factory := f; objects := objects w; history := history w |}.

(** A method call on the router object [o]: the method runs on the
    router, the factory and the log, and all three are written back. *)
Definition on_router {A} (o : oid) (m : M (Router.Env B D) A)
    : M (World B D) A :=
  fun w =>
    match objects w !! o with
    | None => (Raise NoSuchObject, w)
    | Some r =>
        let '(res, e) := m {| Router.self := r;
                              Router.factory := the_factory w;
                              Router.calls := history w |} in
        (res, {| the_factory := Router.factory e;
                 objects := <[o := Router.self e]> (objects w);
                 history := Router.calls e |})
    end.

(** [self.router(self, realm, options, ...)]: the constructor runs and
    the new object gets the next identity. *)
Definition new_router (realm_ : RealmArg) (options : option RouterOptions)
    (store : option RealmStore) (mqtt_payload_format : option string)
    : M (World B D) oid :=
  fun w =>
    match Router.__init__ realm_ options store mqtt_payload_format with
    | Raise e => (Raise e, w)
    | Ok r => (Ok (length (objects w)),
               {| the_factory := the_factory w;
                  objects := objects w ++ [r];
                  history := history w |})
    end.

Definition lift {A} (r : Result A) : M (World B D) A := fun w => (r, w).

Definition set_router (k : string) (o : oid) : M (World B D) unit :=
  modify (fun w => set_the_factory (set_routers <[k := o]> (the_factory w)) w).

(** [RouterFactory.__init__]. *)
Definition __init__ (options : option RouterOptions) : RouterFactory :=
  {| _routers := ∅;
     _factory_options :=
       default {| uri_check := Some URI_CHECK_LOOSE |} options;
     _auto_create_realms := false |}.

(** [RouterFactory.get]; the result is the router object's identity. *)
Definition get (realm_ : string) : M (World B D) oid :=
  w <- get_state ;;
  if _auto_create_realms (the_factory w) then
    (if negb (bool_decide (realm_ ∈ dom (_routers (the_factory w)))) then
       o <- new_router (RealmUri realm_)
              (Some (_factory_options (the_factory w))) None None ;;
       set_router realm_ o
     else ret tt) ;;
    w <- get_state ;;
    lift (getitem realm_ (_routers (the_factory w)))
  else
    lift (getitem realm_ (_routers (the_factory w))).

Definition __getitem__ (realm_ : string) : M (World B D) oid :=
  w <- get_state ;;
  lift (getitem realm_ (_routers (the_factory w))).

Definition __contains__ (realm_ : string) : M (World B D) bool :=
  w <- get_state ;;
  ret (bool_decide (realm_ ∈ dom (_routers (the_factory w)))).

Definition onLastDetach (router : Router B D) : M (World B D) unit :=
  zoom the_factory set_the_factory (RouterFactory_onLastDetach router).

(** [RouterFactory.start_realm]; the result is the identity of the new
    router. *)
Definition start_realm (realm_ : RouterRealm) : M (World B D) oid :=
  let uri_ := cfg_name (config realm_) in
  w <- get_state ;;
  assert (negb (bool_decide (uri_ ∈ dom (_routers (the_factory w))))) ;;
  store <- match cfg_store (config realm_) with
           | Some store_config =>
               if bool_decide (store_type store_config = "lmdb") then
                 (if negb HAS_LMDB
                  then raise (Exception "LDMB not available")
                  else ret tt) ;;
                 ret (Some (LmdbRealmStore store_config))
               else if bool_decide (store_type store_config = "memory") then
                 ret (Some (MemoryRealmStore store_config))
               else raise (Exception "logic error")
           | None => ret None
           end ;;
  mqtt_payload_format <-
    match cfg_mqtt_payload_format (config realm_) with
    | Some f =>
        if negb (bool_decide (f ∈ ["opaque"; "json"; "cbor"]))
        then raise (Exception "Not a valid mqtt_payload_format.")
        else ret f
    | None => ret "opaque"
    end ;;
  router <- new_router (RealmObject realm_)
              (Some (_factory_options (the_factory w))) store
              (Some mqtt_payload_format) ;;
  set_router uri_ router ;;
  ret router.

Definition stop_realm (realm_ : string) : M (World B D) unit := ret tt.

Definition add_role (realm_ : string) (config_ : RoleConfig)
    : M (World B D) unit :=
  assert true ;;
  w <- get_state ;;
  assert (bool_decide (realm_ ∈ dom (_routers (the_factory w)))) ;;
  router <- lift (getitem realm_ (_routers (the_factory w))) ;;
  let uri_ := role_name config_ in
  let role :=
    match role_permissions config_ with
    | Some permissions => RouterRoleStaticAuth uri_ permissions
    | None =>
        match role_authorizer config_ with
        | Some authorizer => RouterRoleDynamicAuth uri_ authorizer
        | None =>
            let allow_by_default :=
              default false (role_allow_by_default config_) in
            RouterRole uri_ allow_by_default
        end
    end in
  on_router router (Router.add_role role) ;;
  ret tt.

Definition drop_role (realm_ role : string) : M (World B D) unit := ret tt.

Definition auto_start_realm (realm_ : string) : M (World B D) unit :=
  raise (Exception ("realm auto-activation (realm '" +:+ realm_
                    +:+ "') not yet implemented")).

Definition auto_add_role (realm_ role : string) : M (World B D) unit :=
  raise (Exception ("role auto-activation (role '" +:+ role
                    +:+ "') not yet implemented")).
End Methods.
End RouterFactory.

(** ** The operations of the core, as its callers reach them

    One constructor per public method of a router object and of the
    factory.  [onLastDetach] is not among them: it is the callback a router
    makes into its factory, and no other caller exists in the core. *)
Inductive Op : Type :=
| op_attach (o : oid) (s : Session)
| op_detach (o : oid) (s : Session)
| op_send (o : oid) (s : Session) (m : Message)
| op_process (o : oid) (s : Session) (m : Message)
| op_has_role (o : oid) (u : string)
| op_add_role (o : oid) (r : Role)
| op_drop_role (o : oid) (r : Role)
| op_authorize (o : oid) (s : Session) (u action : string)
| op_validate (o : oid) (payload_type u : string)
| op_factory_get (realm_ : string)
| op_factory_getitem (realm_ : string)
| op_factory_contains (realm_ : string)
| op_factory_start_realm (realm_ : RouterRealm)
| op_factory_stop_realm (realm_ : string)
| op_factory_add_role (realm_ : string) (c : RoleConfig)
| op_factory_drop_role (realm_ role : string)
| op_factory_auto_start_realm (realm_ : string)
| op_factory_auto_add_role (realm_ role : string).

Section Run.
Context {B D : Type} `{!BrokerClass B, !DealerClass D}.
Variable HAS_LMDB : bool.

Definition discard {S A} (m : M S A) : M S unit := _ <- m ;; ret tt.

Definition run_op (op : Op) : M (World B D) unit :=
  match op with
  | op_attach o s => discard (RouterFactory.on_router o (Router.attach s))
  | op_detach o s => RouterFactory.on_router o (Router.detach s)
  | op_send o s m => RouterFactory.on_router o (Router.send s m)
  | op_process o s m => RouterFactory.on_router o (Router.process s m)
  | op_has_role o u => discard (RouterFactory.on_router o (Router.has_role u))
  | op_add_role o r => discard (RouterFactory.on_router o (Router.add_role r))
  | op_drop_role o r => discard (RouterFactory.on_router o (Router.drop_role r))
  | op_authorize o s u a =>
      discard (RouterFactory.on_router o (Router.authorize s u a))
  | op_validate o p u => RouterFactory.on_router o (Router.validate p u)
  | op_factory_get r => discard (RouterFactory.get r)
  | op_factory_getitem r => discard (RouterFactory.__getitem__ r)
  | op_factory_contains r => discard (RouterFactory.__contains__ r)
  | op_factory_start_realm r => discard (RouterFactory.start_realm HAS_LMDB r)
  | op_factory_stop_realm r => RouterFactory.stop_realm r
  | op_factory_add_role r c => RouterFactory.add_role r c
  | op_factory_drop_role r x => RouterFactory.drop_role r x
  | op_factory_auto_start_realm r => RouterFactory.auto_start_realm r
  | op_factory_auto_add_role r x => RouterFactory.auto_add_role r x
  end.

(** A caller that goes on after an operation has raised: the state the
    operations leave, one after the other. *)
Fixpoint run_ops (ops : list Op) (w : World B D) : World B D :=
  match ops with
  | [] => w
  | op :: ops => run_ops ops (snd (run_op op w))
  end.
End Run.

(** The number of [onLastDetach] calls in a log. *)
Fixpoint count_onLastDetach (l : list CallEvent) : nat :=
  match l with
  | [] => 0%nat
  | call_Factory_onLastDetach _ :: l => S (count_onLastDetach l)
  | _ :: l => count_onLastDetach l
  end.

(** The number of entries of a dictionary under a key. *)
Definition entries_for {V} (k : Z) (d : gmap Z V) : nat :=
  length (filter (fun kv => kv.1 = k) (map_to_list d)).

(** ** Engines that record the calls they receive

    The simplest Broker and Dealer: the state of the engine is the list of
    calls made to it. They instantiate the interfaces where a statement is
    evaluated on a concrete router. *)
#[global] Instance recording_broker : BrokerClass (list CallEvent) := {|
  Broker_init _ := [];
  Broker_attach s b := (b ++ [call_Broker_attach s])%list;
  Broker_detach s b := (b ++ [call_Broker_detach s])%list;
  Broker_processPublish s m b := (b ++ [call_Broker_processPublish s m])%list;
  Broker_processSubscribe s m b := (b ++ [call_Broker_processSubscribe s m])%list;
  Broker_processUnsubscribe s m b := (b ++ [call_Broker_processUnsubscribe s m])%list;
  Broker_role_features _ := ["publisher"; "subscriber"]
|}.

#[global] Instance recording_dealer : DealerClass (list CallEvent) := {|
  Dealer_init _ := [];
  Dealer_attach s d := (d ++ [call_Dealer_attach s])%list;
  Dealer_detach s d := (d ++ [call_Dealer_detach s])%list;
  Dealer_processRegister s m d := (d ++ [call_Dealer_processRegister s m])%list;
  Dealer_processUnregister s m d := (d ++ [call_Dealer_processUnregister s m])%list;
  Dealer_processCall s m d := (d ++ [call_Dealer_processCall s m])%list;
  Dealer_processCancel s m d := (d ++ [call_Dealer_processCancel s m])%list;
  Dealer_processYield s m d := (d ++ [call_Dealer_processYield s m])%list;
  Dealer_processInvocationError s m d :=
    (d ++ [call_Dealer_processInvocationError s m])%list;
  Dealer_role_features _ := ["caller"; "callee"]
|}.

Abbreviation Rec := (list CallEvent).

(** A small world to evaluate on: a factory that has started realm
    [realm1], a client session and an internal session. *)
Definition realm1 : RouterRealm :=
  {| config := {| cfg_name := "realm1"; cfg_store := None;
                  cfg_mqtt_payload_format := None |} |}.

Definition world0 : World Rec Rec :=
  {| the_factory := RouterFactory.__init__ None; objects := []; history := [] |}.

Definition world1 : World Rec Rec :=
  snd (RouterFactory.start_realm false realm1 world0).

(** The empty world of a factory whose auto-creation of realms is on. *)
Definition world_auto : World Rec Rec :=
  {| the_factory :=
       {| _routers := ∅;
          _factory_options := {| uri_check := Some URI_CHECK_LOOSE |};
          _auto_create_realms := true |};
     objects := []; history := [] |}.

(** The two failing configurations of the specification's examples. *)
Definition realm1_lmdb : RouterRealm :=
  {| config := {| cfg_name := "realm1";
                  cfg_store := Some {| store_type := "lmdb" |};
                  cfg_mqtt_payload_format := None |} |}.

Definition realm1_xml : RouterRealm :=
  {| config := {| cfg_name := "realm1"; cfg_store := None;
                  cfg_mqtt_payload_format := Some "xml" |} |}.

Definition router1 : Router Rec Rec :=
  default
    {| _options := RouterOptions_default; _store := None; _realm := realm1;
       realm := "realm1"; _trace_traffic := false;
       _trace_traffic_roles_include := None;
       _trace_traffic_roles_exclude := None;
       _session_id_to_session := ∅; _broker := []; _dealer := [];
       _attached := 0; _mqtt_payload_format := None; _roles := ∅ |}
    (objects world1 !! 0%nat).

Definition env1 : Router.Env Rec Rec :=
  {| Router.self := router1; Router.factory := the_factory world1;
     Router.calls := [] |}.

Definition client_session : Session :=
  {| _session_id := 7001; _authid := "alice"; _authrole := "frontend";
     _session_details := Some {| details_realm := "realm1" |} |}.

Definition internal_session : Session :=
  {| _session_id := 7002; _authid := "service"; _authrole := "trusted";
     _session_details := None |}.

(** ** The error kinds of the specification

    The source raises bare exceptions; the specification names the kinds.
    Each kind is the exception the source raises for it. *)
Definition DuplicateAttach (id : Z) : exn :=
  Exception ("session with ID " +:+ pretty id +:+ " already attached").

Definition NotAttached (id : Z) : exn :=
  Exception ("session with ID " +:+ pretty id +:+ " not attached").

Definition ReservedRole (verb u : string) : exn :=
  Exception ("cannot " +:+ verb +:+ " reserved role '" +:+ u +:+ "'").

Definition UnexpectedMessage (msg : Message) : exn :=
  ProtocolError ("Unexpected message " +:+ class_repr msg).

Definition NotFound (realm_ : string) : exn := KeyError realm_.

Definition BackendUnavailable : exn := Exception "LDMB not available".

Definition InvalidConfig : exn := Exception "Not a valid mqtt_payload_format.".

(** ** The words of the specification, to compare the code with *)

(** The normalized record of a bare boolean: [{allow: b, cache: false}],
    and [disclose: false] as well for the actions [call] and [publish]. *)
Definition normalized (b : bool) (action : string) : gmap string pyval :=
  let d : gmap string pyval :=
    {[ "allow" := PyBool b; "cache" := PyBool false ]} in
  if bool_decide (action = "call" ∨ action = "publish")
  then <["disclose" := PyBool false]> d
  else d.

Definition valid_action (action : string) : Prop :=
  action = "call" ∨ action = "register" ∨ action = "publish"
  ∨ action = "subscribe".

(** The handlers of the dispatch table. *)
Inductive Handler : Type :=
| Broker_processPublish_h
| Broker_processSubscribe_h
| Broker_processUnsubscribe_h
| Dealer_processRegister_h
| Dealer_processUnregister_h
| Dealer_processCall_h
| Dealer_processCancel_h
| Dealer_processYield_h
| Dealer_processInvocationError_h.

(** The fixed table of the specification, by message kind. *)
Definition dispatch_table (msg : Message) : option Handler :=
  match msg_class msg with
  | Publish => Some Broker_processPublish_h
  | Subscribe => Some Broker_processSubscribe_h
  | Unsubscribe => Some Broker_processUnsubscribe_h
  | Register => Some Dealer_processRegister_h
  | Unregister => Some Dealer_processUnregister_h
  | Call => Some Dealer_processCall_h
  | Cancel => Some Dealer_processCancel_h
  | Yield => Some Dealer_processYield_h
  | Error =>
      if bool_decide (request_type msg = Invocation_MESSAGE_TYPE)
      then Some Dealer_processInvocationError_h
      else None
  | _ => None
  end.

Definition handler_event (h : Handler) (s : Session) (m : Message) : CallEvent :=
  match h with
  | Broker_processPublish_h => call_Broker_processPublish s m
  | Broker_processSubscribe_h => call_Broker_processSubscribe s m
  | Broker_processUnsubscribe_h => call_Broker_processUnsubscribe s m
  | Dealer_processRegister_h => call_Dealer_processRegister s m
  | Dealer_processUnregister_h => call_Dealer_processUnregister s m
  | Dealer_processCall_h => call_Dealer_processCall s m
  | Dealer_processCancel_h => call_Dealer_processCancel s m
  | Dealer_processYield_h => call_Dealer_processYield s m
  | Dealer_processInvocationError_h => call_Dealer_processInvocationError s m
  end.

Section Words.
Context {B D : Type} `{!BrokerClass B, !DealerClass D}.

(** What the call of one handler does to a router: the transition of the
    engine that owns the handler, and nothing else. *)
Definition handler_step (h : Handler) (s : Session) (m : Message)
    (r : Router B D) : Router B D :=
  match h with
  | Broker_processPublish_h =>
      Router.with_broker (Broker_processPublish s m) r
  | Broker_processSubscribe_h =>
      Router.with_broker (Broker_processSubscribe s m) r
  | Broker_processUnsubscribe_h =>
      Router.with_broker (Broker_processUnsubscribe s m) r
  | Dealer_processRegister_h =>
      Router.with_dealer (Dealer_processRegister s m) r
  | Dealer_processUnregister_h =>
      Router.with_dealer (Dealer_processUnregister s m) r
  | Dealer_processCall_h => Router.with_dealer (Dealer_processCall s m) r
  | Dealer_processCancel_h => Router.with_dealer (Dealer_processCancel s m) r
  | Dealer_processYield_h => Router.with_dealer (Dealer_processYield s m) r
  | Dealer_processInvocationError_h =>
      Router.with_dealer (Dealer_processInvocationError s m) r
  end.

(** The line the router logs for a received message when the trace
    filter lets it through. *)
Definition rx_log (r : Router B D) (s : Session) (m : Message)
    : list CallEvent :=
  if Router._check_trace r s m then [call_log_info ">>RX>>" m] else [].

(** A router is live when its realm is registered with its factory. *)
Definition live (e : Router.Env B D) : Prop :=
  realm (Router.self e) ∈ dom (_routers (Router.factory e)).

(** [attach] called [n] times in a row with the same session; the result
    tells whether every call returned. *)
Fixpoint attach_times (n : nat) (session : Session) (e : Router.Env B D)
    : bool * Router.Env B D :=
  match n with
  | O => (true, e)
  | S n =>
      let '(r, e') := Router.attach session e in
      if is_ok r then attach_times n session e' else (false, e')
  end.

(** The router after the part of [detach] that precedes the call of
    [onLastDetach], when that part does not raise. *)
Definition detached (session : Session) (r : Router B D) : Router B D :=
  Router.with_attached (fun n => n - 1)
    (Router.with_sessions (delete (_session_id session))
       (Router.with_dealer (Dealer_detach session)
          (Router.with_broker (Broker_detach session) r))).

Definition detach_calls (session : Session) : list CallEvent :=
  [call_Broker_detach session; call_Dealer_detach session].

(** A method keeps the factory when it leaves the factory and the number
    of [onLastDetach] calls as they were, and keeps the identity of the
    router when the realm name and the trusted role stay. *)
Definition keeps_factory {A} (m : M (Router.Env B D) A) : Prop :=
  ∀ e, Router.factory (snd (m e)) = Router.factory e
       ∧ count_onLastDetach (Router.calls (snd (m e)))
         = count_onLastDetach (Router.calls e).

Definition keeps_identity {A} (m : M (Router.Env B D) A) : Prop :=
  ∀ e, realm (Router.self (snd (m e))) = realm (Router.self e)
       ∧ _roles (Router.self (snd (m e))) !! "trusted"
         = _roles (Router.self e) !! "trusted".

(** The state a method of the router [r] of [w] starts on. *)
Definition env_of (w : World B D) (r : Router B D) : Router.Env B D :=
  {| Router.self := r; Router.factory := the_factory w;
     Router.calls := history w |}.

(** The store section of a realm configuration can be set up: there is
    none, or it asks for the memory store, or for LMDB where the
    deployment has it. *)
Definition store_available (has_lmdb : bool) (c : RealmConfig) : Prop :=
  match cfg_store c with
  | None => True
  | Some sc =>
      (store_type sc = "lmdb" ∧ has_lmdb = true) ∨ store_type sc = "memory"
  end.

(** Every router of a world has the built-in trusted role. *)
Definition all_trusted (w : World B D) : Prop :=
  ∀ o r, objects w !! o = Some r →
         _roles r !! "trusted" = Some (RouterTrustedRole "trusted").
End Words.

(** ** Further words, for the properties beyond the specification *)

Section MoreWords.
Context {B D : Type} `{!BrokerClass B, !DealerClass D}.

(** The line the router logs for a message it sends, when the trace filter
    lets it through. *)
Definition tx_log (r : Router B D) (s : Session) (m : Message)
    : list CallEvent :=
  if Router._check_trace r s m then [call_log_info "<<TX<<" m] else [].

(** The session registry holds client sessions only, each under its own
    identifier. *)
Definition registry_wf (r : Router B D) : Prop :=
  ∀ id s, _session_id_to_session r !! id = Some s →
          _session_id s = id ∧ _is_client_session s = true.

Definition all_registry_wf (w : World B D) : Prop :=
  ∀ o r, objects w !! o = Some r → registry_wf r.

(** The counter of attached sessions equals the size of the registry. *)
Definition counts_registry (r : Router B D) : Prop :=
  _attached r = Z.of_nat (size (_session_id_to_session r)).

(** Attach and detach calls on one router, run one after the other by a
    caller that goes on after a call has raised. *)
Inductive SessionOp : Type :=
| do_attach (s : Session)
| do_detach (s : Session).

Definition session_of (op : SessionOp) : Session :=
  match op with do_attach s => s | do_detach s => s end.

Definition run_session_op (op : SessionOp) : M (Router.Env B D) unit :=
  match op with
  | do_attach s => discard (Router.attach s)
  | do_detach s => Router.detach s
  end.

Fixpoint run_session_ops (ops : list SessionOp) (e : Router.Env B D)
    : Router.Env B D :=
  match ops with
  | [] => e
  | op :: ops => run_session_ops ops (snd (run_session_op op e))
  end.
End MoreWords.

(** Further sample inputs: a role that answers with a dictionary, the
    router after that role was added, after an internal session attached,
    and after its realm was torn down and a client attached again; a store
    type the factory does not know, and two role configurations. *)
Definition dict_role : Role :=
  {| uri := "frontend";
     authorize := fun _ _ _ =>
       FutureSuccess (AuthDict {[ "allow" := PyBool true;
                                  "cache" := PyBool true ]}) |}.

Definition env_frontend : Router.Env Rec Rec :=
  snd (Router.add_role dict_role env1).

Definition env_busy : Router.Env Rec Rec :=
  snd (Router.attach internal_session env1).

Definition env_torn_down : Router.Env Rec Rec :=
  snd (Router.attach client_session
         (snd ((_ <- Router.attach client_session ;;
                Router.detach client_session) env1))).

Definition realm1_sqlite : RouterRealm :=
  {| config := {| cfg_name := "realm1";
                  cfg_store := Some {| store_type := "sqlite" |};
                  cfg_mqtt_payload_format := None |} |}.

Definition backend_config : RoleConfig :=
  {| role_name := "backend"; role_permissions := None;
     role_authorizer := None; role_allow_by_default := Some true |}.

Definition trusted_config : RoleConfig :=
  {| role_name := "trusted"; role_permissions := None;
     role_authorizer := None; role_allow_by_default := None |}.

(** Two runs from the empty world.  In [world_restarted] realm [realm1]
    was started, its one session came and went (which tore the realm down),
    the realm was started a second time, a client attached to the second
    router and an internal session to the first, stale one.  In
    [world_torn_down] the realm was started and torn down in the same way,
    and a client then attached to the router again. *)
Definition second_client_session : Session :=
  {| _session_id := 7003; _authid := "bob"; _authrole := "frontend";
     _session_details := Some {| details_realm := "realm1" |} |}.

Definition world_restarted : World Rec Rec :=
  run_ops false
    [op_factory_start_realm realm1;
     op_attach 0%nat client_session; op_detach 0%nat client_session;
     op_factory_start_realm realm1;
     op_attach 1%nat second_client_session;
     op_attach 0%nat internal_session] world0.

Definition world_torn_down : World Rec Rec :=
  run_ops false
    [op_factory_start_realm realm1;
     op_attach 0%nat client_session; op_detach 0%nat client_session;
     op_attach 0%nat client_session] world0.

(** * Properties *)

Ltac run :=
  repeat (progress (cbv [Router.attach Router.detach Router.send Router.process
                          Router.has_role Router.add_role Router.drop_role
                          Router.authorize Router.raw_authorization
                          Router.validate Router.broker_call Router.dealer_call
                          Router.log_call bind ret raise modify get_state
                          assert zoom discard RouterFactory_onLastDetach
                          delitem]; cbn [fst snd Router.self Router.factory
                          Router.calls Router.set_self Router.set_factory])).

Section MapFacts.
Context {V : Type}.
Implicit Types (d : gmap Z V).

Lemma entries_for_absent k d : d !! k = None → entries_for k d = 0%nat.
Proof.
  unfold entries_for. intros Hk.
  induction d as [|i x m Hi Hf IH] using map_first_key_ind.
  { by rewrite map_to_list_empty. }
  rewrite map_to_list_insert_first_key by done.
  rewrite filter_cons. cbn [fst].
  destruct (decide (i = k)) as [->|Hne].
  - by rewrite lookup_insert_eq in Hk.
  - rewrite lookup_insert_ne in Hk by done. auto.
Qed.

Lemma entries_for_present k d v : d !! k = Some v → entries_for k d = 1%nat.
Proof.
  unfold entries_for. intros Hk.
  induction d as [|i x m Hi Hf IH] using map_first_key_ind.
  { by rewrite lookup_empty in Hk. }
  rewrite map_to_list_insert_first_key by done.
  rewrite filter_cons. cbn [fst].
  destruct (decide (i = k)) as [->|Hne].
  - cbn [length]. f_equal. by apply entries_for_absent.
  - rewrite lookup_insert_ne in Hk by done. auto.
Qed.
End MapFacts.

Section RouterProperties.
Context {B D : Type} `{!BrokerClass B, !DealerClass D}.
Implicit Types (e : Router.Env B D) (session : Session) (msg : Message).

Lemma valid_action_assert action :
  valid_action action →
  bool_decide (action ∈ ["call"; "register"; "publish"; "subscribe"]) = true.
Proof.
  intros Hv. apply bool_decide_eq_true.
  destruct Hv as [-> | [-> | [-> | ->]]]; set_solver.
Qed.

Lemma disclose_actions action :
  bool_decide (action ∈ ["call"; "publish"])
  = bool_decide (action = "call" ∨ action = "publish").
Proof.
  apply bool_decide_ext. by rewrite elem_of_cons, list_elem_of_singleton.
Qed.

(** The callback on a bare boolean builds the normalized record. *)
Lemma got_authorization_bool role action b :
  Router.got_authorization role action (AuthValue (PyBool b))
  = Ok (AuthDict (normalized b action)).
Proof.
  unfold Router.got_authorization, normalized. cbn [andb].
  rewrite disclose_actions. rewrite insert_empty.
  by destruct (bool_decide (action = "call" ∨ action = "publish")).
Qed.

(** C1. A session whose authrole is not a key of the router's role
    registry is denied: for each of the four actions [authorize] returns,
    without raising, a future that has fired with a record whose [allow]
    is [False]; the router, its factory and the call log are as before,
    so that no role's [authorize] has been invoked. *)
Theorem authorize_unknown_role_denies e session u action :
  valid_action action →
  _roles (Router.self e) !! _authrole session = None →
  ∃ d, Router.authorize session u action e
       = (Ok (FutureSuccess (AuthDict d)), e)
       ∧ d !! "allow" = Some (PyBool false)
       ∧ d = normalized false action.
Proof.
  intros Hv Hrole. exists (normalized false action).
  split; [|split; [|done]].
  - run. rewrite valid_action_assert by done. run. rewrite Hrole. run.
    unfold addCallback. by rewrite got_authorization_bool.
  - unfold normalized.
    by destruct (bool_decide (action = "call" ∨ action = "publish")).
Qed.

(** C2. When the future built for a session, a uri and one of the four
    actions has fired with a bare boolean [b], [authorize] returns the
    future fired with the record [{allow: b, cache: False}], to which
    [disclose: False] is added exactly when the action is [call] or
    [publish]: a raw [True] gives
    [{allow: True, cache: False, disclose: False}] for [call] and
    [{allow: True, cache: False}], without a [disclose] key, for
    [subscribe]. *)
Theorem authorize_normalizes_bool e e' session u action b :
  valid_action action →
  Router.raw_authorization session u action e
  = (Ok (FutureSuccess (AuthValue (PyBool b))), e') →
  Router.authorize session u action e
  = (Ok (FutureSuccess (AuthDict (normalized b action))), e')
  ∧ normalized b action !! "allow" = Some (PyBool b)
  ∧ normalized b action !! "cache" = Some (PyBool false)
  ∧ normalized b action !! "disclose"
    = (if bool_decide (action = "call" ∨ action = "publish")
       then Some (PyBool false) else None)
  ∧ (∀ k, is_Some (normalized b action !! k) →
          k = "allow" ∨ k = "cache" ∨ k = "disclose")
  ∧ normalized true "call"
    = {[ "allow" := PyBool true; "cache" := PyBool false;
         "disclose" := PyBool false ]}
  ∧ normalized true "subscribe"
    = {[ "allow" := PyBool true; "cache" := PyBool false ]}
  ∧ normalized true "subscribe" !! "disclose" = None.
Proof.
  intros Hv Hraw. split.
  { unfold Router.authorize. unfold assert at 1 2.
    rewrite valid_action_assert by done.
    cbv [bind ret] in *. rewrite Hraw. unfold addCallback.
    by rewrite got_authorization_bool. }
  unfold normalized.
  destruct (bool_decide (action = "call" ∨ action = "publish"));
    repeat split; try done.
  - intros k [v Hk].
    destruct (decide (k = "disclose")) as [->|]; [auto|].
    destruct (decide (k = "allow")) as [->|]; [auto|].
    destruct (decide (k = "cache")) as [->|]; [auto|].
    by rewrite !lookup_insert_ne, lookup_singleton_ne in Hk.
  - intros k [v Hk].
    destruct (decide (k = "allow")) as [->|]; [auto|].
    destruct (decide (k = "cache")) as [->|]; [auto|].
    by rewrite lookup_insert_ne, lookup_singleton_ne in Hk.
Qed.

(** C3. [process] calls exactly the handler that the dispatch table gives
    for the message, once: the owning engine makes that handler's
    transition and the call is the only one added to the log (after the
    trace line, when tracing lets the message through).  For a message
    that the table does not list, [process] raises a ProtocolError that
    names the message's class, and the router, with its Broker and its
    Dealer, is as it was. *)
Theorem process_dispatches_by_table e session msg :
  Router.process session msg e
  = match dispatch_table msg with
    | Some h =>
        (Ok tt,
         {| Router.self := handler_step h session msg (Router.self e);
            Router.factory := Router.factory e;
            Router.calls :=
              Router.calls e ++ rx_log (Router.self e) session msg
              ++ [handler_event h session msg] |})
    | None =>
        (Raise (UnexpectedMessage msg),
         {| Router.self := Router.self e;
            Router.factory := Router.factory e;
            Router.calls :=
              Router.calls e ++ rx_log (Router.self e) session msg |})
    end.
Proof.
  destruct e as [r f l], msg as [c rt fs].
  unfold dispatch_table, rx_log, UnexpectedMessage. run.
  destruct (Router._check_trace r session _); run;
    destruct c; cbv [isinstance andb]; cbn [msg_class request_type];
    repeat (case_bool_decide; try discriminate); try congruence;
    cbn; rewrite <- ?app_assoc, ?app_nil_r; reflexivity.
Qed.

(** C4. [attach] of a session whose identifier is a key of the session
    registry raises the duplicate-attach exception and changes nothing:
    the registry has exactly one entry under that identifier, the one it
    had. *)
Theorem attach_duplicate_fails e session s0 :
  _session_id_to_session (Router.self e) !! _session_id session = Some s0 →
  ∃ e', Router.attach session e
        = (Raise (DuplicateAttach (_session_id session)), e')
        ∧ e' = e
        ∧ _session_id_to_session (Router.self e') !! _session_id session
          = Some s0
        ∧ entries_for (_session_id session)
            (_session_id_to_session (Router.self e')) = 1%nat.
Proof.
  intros Hin. exists e. split; [|split; [done|split; [done|]]].
  - run. rewrite Hin. reflexivity.
  - by eapply entries_for_present.
Qed.

(** C5. [detach] of a client session whose identifier is not a key of the
    session registry first calls [detach] on the Broker and then on the
    Dealer, and then raises the not-attached exception: the two engines
    have made their transitions although the call fails, and the counter
    and the registry are as before. *)
Theorem detach_unattached_client_fails e session :
  _is_client_session session = true →
  _session_id_to_session (Router.self e) !! _session_id session = None →
  ∃ e', Router.detach session e
        = (Raise (NotAttached (_session_id session)), e')
        ∧ _broker (Router.self e')
          = Broker_detach session (_broker (Router.self e))
        ∧ _dealer (Router.self e')
          = Dealer_detach session (_dealer (Router.self e))
        ∧ Router.calls e'
          = (Router.calls e
             ++ [call_Broker_detach session; call_Dealer_detach session])%list
        ∧ _attached (Router.self e') = _attached (Router.self e)
        ∧ _session_id_to_session (Router.self e')
          = _session_id_to_session (Router.self e)
        ∧ Router.factory e' = Router.factory e.
Proof.
  intros Hclient Hout. destruct e as [r f l]. cbn in Hout. eexists. split.
  - run. cbn. rewrite Hout, Hclient. reflexivity.
  - cbn. rewrite <- app_assoc. done.
Qed.

(** *** What [attach] and [detach] do, case by case *)

Lemma attach_unregistered e session :
  _session_id_to_session (Router.self e) !! _session_id session = None →
  ∃ feats,
    Router.attach session e
    = (Ok feats,
       {| Router.self :=
            Router.with_attached (fun n => n + 1)
              (Router.with_dealer (Dealer_attach session)
                 (Router.with_broker (Broker_attach session)
                    (if _is_client_session session
                     then Router.with_sessions
                            <[_session_id session := session]> (Router.self e)
                     else Router.self e)));
          Router.factory := Router.factory e;
          Router.calls :=
            Router.calls e
            ++ [call_Broker_attach session; call_Dealer_attach session] |}).
Proof.
  intros Hout. destruct e as [r f l]. cbn in Hout. eexists.
  run. cbn. rewrite Hout.
  destruct (_is_client_session session); run; cbn;
    rewrite <- app_assoc; reflexivity.
Qed.

Lemma detach_passes e session :
  is_Some (_session_id_to_session (Router.self e) !! _session_id session)
  ∨ _is_client_session session = false →
  Router.detach session e
  = if bool_decide (_attached (Router.self e) = 1)
    then
      if bool_decide (realm (Router.self e) ∈ dom (_routers (Router.factory e)))
      then
        (Ok tt,
         {| Router.self := detached session (Router.self e);
            Router.factory :=
              set_routers (delete (realm (Router.self e)))
                (Router.factory e);
            Router.calls :=
              Router.calls e ++ detach_calls session
              ++ [call_Factory_onLastDetach (realm (Router.self e))] |})
      else
        (Raise AssertionError,
         {| Router.self := detached session (Router.self e);
            Router.factory := Router.factory e;
            Router.calls :=
              Router.calls e ++ detach_calls session
              ++ [call_Factory_onLastDetach (realm (Router.self e))] |})
    else
      (Ok tt,
       {| Router.self := detached session (Router.self e);
          Router.factory := Router.factory e;
          Router.calls := Router.calls e ++ detach_calls session |}).
Proof.
  intros Hpass. destruct e as [r f l]. cbn in Hpass.
  assert (Hreg : Router.with_sessions (delete (_session_id session))
                   (Router.with_dealer (Dealer_detach session)
                      (Router.with_broker (Broker_detach session) r))
                 = match _session_id_to_session r !! _session_id session with
                   | Some _ =>
                       Router.with_sessions (delete (_session_id session))
                         (Router.with_dealer (Dealer_detach session)
                            (Router.with_broker (Broker_detach session) r))
                   | None =>
                       Router.with_dealer (Dealer_detach session)
                         (Router.with_broker (Broker_detach session) r)
                   end).
  { destruct (_session_id_to_session r !! _session_id session) eqn:E;
      [done|]. unfold Router.with_sessions. cbn.
    by rewrite delete_id. }
  unfold detached, detach_calls. cbn [Router.self Router.factory Router.calls].
  rewrite Hreg. clear Hreg. run. cbn.
  destruct (_session_id_to_session r !! _session_id session) eqn:E.
  - run. cbn.
    destruct (decide (_attached r = 1)) as [H1|H1].
    + rewrite (bool_decide_eq_true_2 _ H1).
      rewrite bool_decide_eq_false_2 by lia. cbn.
      case_bool_decide as Hlive; cbn.
      * apply elem_of_dom in Hlive as [o Ho]. rewrite Ho.
        rewrite <- !app_assoc. reflexivity.
      * rewrite <- !app_assoc. reflexivity.
    + rewrite (bool_decide_eq_false_2 _ H1).
      rewrite bool_decide_eq_true_2 by lia. cbn.
      rewrite <- !app_assoc. reflexivity.
  - destruct Hpass as [[? ?]|Hnc]; [done|]. rewrite Hnc. run. cbn.
    destruct (decide (_attached r = 1)) as [H1|H1].
    + rewrite (bool_decide_eq_true_2 _ H1).
      rewrite bool_decide_eq_false_2 by lia. cbn.
      case_bool_decide as Hlive; cbn.
      * apply elem_of_dom in Hlive as [o Ho]. rewrite Ho.
        rewrite <- !app_assoc. reflexivity.
      * rewrite <- !app_assoc. reflexivity.
    + rewrite (bool_decide_eq_false_2 _ H1).
      rewrite bool_decide_eq_true_2 by lia. cbn.
      rewrite <- !app_assoc. reflexivity.
Qed.

Lemma attach_times_nonclient n : ∀ e session,
  _is_client_session session = false →
  _session_id_to_session (Router.self e) !! _session_id session = None →
  ∃ e', attach_times n session e = (true, e')
        ∧ _attached (Router.self e') = _attached (Router.self e) + Z.of_nat n
        ∧ _session_id_to_session (Router.self e')
          = _session_id_to_session (Router.self e)
        ∧ Router.factory e' = Router.factory e.
Proof.
  induction n as [|n IH]; intros e session Hnc Hout.
  - exists e. cbn. repeat split; try done. lia.
  - destruct (attach_unregistered e session Hout) as [feats Hat].
    cbn [attach_times]. rewrite Hat. cbn [is_ok]. rewrite Hnc in *.
    match goal with
    | |- context [attach_times n session ?e1] =>
        destruct (IH e1 session Hnc) as (e' & He' & Hcnt & Hreg & Hfac);
          [exact Hout|]
    end.
    exists e'. split; [exact He'|].
    cbn in Hcnt, Hreg, Hfac. repeat split; try done. lia.
Qed.

(** What [detach] does on a router whose realm its factory no longer
    has, when the decrement reaches zero: the callback's assertion
    fails, after the decrement. *)
Lemma detach_to_zero_unregistered e session :
  _is_client_session session = false →
  _attached (Router.self e) = 1 →
  ¬ live e →
  fst (Router.detach session e) = Raise AssertionError
  ∧ _attached (Router.self (snd (Router.detach session e))) = 0.
Proof.
  intros Hnc H1 Hlive. rewrite detach_passes by auto.
  rewrite (bool_decide_eq_true_2 _ H1).
  unfold live in Hlive. rewrite (bool_decide_eq_false_2 _ Hlive).
  cbn. split; [done|lia].
Qed.

(** C10. A session without client details whose identifier is not a key
    of the session registry is not registered by [attach], which returns
    and adds one to the counter, so that attaching it any number of times
    in a row returns every time and adds that number.  [detach] of a
    session without client details, attached or not, always subtracts one
    from the counter and never raises the not-attached exception.  It
    returns, except in one case: when the decrement reaches zero on a
    router whose realm is not registered with its factory, the assertion of
    [onLastDetach] fails and [detach] raises [AssertionError], after the
    decrement.  From a counter of one on a router whose realm is registered
    such a detach reaches zero, calls [onLastDetach] and the realm leaves
    the factory's registry, without any attach of that session; from a
    counter of zero or less it goes negative. *)
Theorem nonclient_session_unchecked e session other n :
  _is_client_session session = false →
  _session_id_to_session (Router.self e) !! _session_id session = None →
  _is_client_session other = false →
  (∃ feats e1,
      Router.attach session e = (Ok feats, e1)
      ∧ _session_id_to_session (Router.self e1)
        = _session_id_to_session (Router.self e)
      ∧ _attached (Router.self e1) = _attached (Router.self e) + 1)
  ∧ (∃ en,
      attach_times n session e = (true, en)
      ∧ _attached (Router.self en) = _attached (Router.self e) + Z.of_nat n
      ∧ _session_id_to_session (Router.self en)
        = _session_id_to_session (Router.self e))
  ∧ _attached (Router.self (snd (Router.detach other e)))
    = _attached (Router.self e) - 1
  ∧ (∀ id, fst (Router.detach other e) ≠ Raise (NotAttached id))
  ∧ (_attached (Router.self e) ≠ 1 ∨ live e →
     ∃ e2,
       Router.detach other e = (Ok tt, e2)
       ∧ (_attached (Router.self e) = 1 →
          _attached (Router.self e2) = 0
          ∧ Router.calls e2
            = (Router.calls e ++ detach_calls other
               ++ [call_Factory_onLastDetach (realm (Router.self e))])%list
          ∧ realm (Router.self e) ∉ dom (_routers (Router.factory e2)))
       ∧ ((_attached (Router.self e) ≤ 0)%Z →
          (_attached (Router.self e2) < 0)%Z
          ∧ Router.factory e2 = Router.factory e
          ∧ Router.calls e2 = (Router.calls e ++ detach_calls other)%list))
  ∧ (_attached (Router.self e) = 1 → ¬ live e →
     Router.detach other e
     = (Raise AssertionError,
        {| Router.self := detached other (Router.self e);
           Router.factory := Router.factory e;
           Router.calls :=
             Router.calls e ++ detach_calls other
             ++ [call_Factory_onLastDetach (realm (Router.self e))] |})).
Proof.
  intros Hnc Hout Hnc'. split; [|split; [|split; [|split; [|split]]]].
  - destruct (attach_unregistered e session Hout) as [feats Hat].
    eexists _, _. split; [exact Hat|]. rewrite Hnc. cbn. done.
  - destruct (attach_times_nonclient n e session Hnc Hout)
      as (en & Hen & Hcnt & Hreg & _). eauto.
  - rewrite detach_passes by auto. repeat case_bool_decide; cbn; lia.
  - intros id. rewrite detach_passes by auto.
    repeat case_bool_decide; cbn; discriminate.
  - intros Hret. rewrite detach_passes by auto. unfold live in Hret.
    case_bool_decide as H1.
    + destruct Hret as [?|Hlive]; [done|].
      rewrite (bool_decide_eq_true_2 _ Hlive).
      eexists. split; [reflexivity|]. cbn. split; [|lia].
      intros _. split; [lia|]. split; [done|].
      apply not_elem_of_dom, lookup_delete_eq.
    + eexists. split; [reflexivity|]. cbn. split; [done|].
      intros Hle. split; [lia|]. done.
  - intros H1 Hlive. rewrite detach_passes by auto.
    rewrite (bool_decide_eq_true_2 _ H1). unfold live in Hlive.
    by rewrite (bool_decide_eq_false_2 _ Hlive).
Qed.

(** *** What a router method leaves alone *)

Lemma count_onLastDetach_app l1 l2 :
  count_onLastDetach (l1 ++ l2)
  = (count_onLastDetach l1 + count_onLastDetach l2)%nat.
Proof.
  induction l1 as [|c l1 IH]; [done|]. destruct c; cbn; rewrite ?IH; done.
Qed.

Ltac frame :=
  intros [r f l]; run; cbn;
  repeat (first [case_match | case_bool_decide]; simplify_eq/=);
  rewrite ?count_onLastDetach_app, ?Nat.add_0_r; cbn; auto.

Lemma not_reserved u : u ∉ Router.RESERVED_ROLES → u ≠ "trusted".
Proof.
  unfold Router.RESERVED_ROLES. rewrite list_elem_of_singleton. done.
Qed.

Lemma attach_keeps_factory session :
  keeps_factory (B:=B) (D:=D) (Router.attach session).
Proof. frame. Qed.

Lemma attach_keeps_identity session :
  keeps_identity (B:=B) (D:=D) (Router.attach session).
Proof. frame. Qed.

Lemma send_keeps_factory session msg :
  keeps_factory (B:=B) (D:=D) (Router.send session msg).
Proof. frame. Qed.

Lemma send_keeps_identity session msg :
  keeps_identity (B:=B) (D:=D) (Router.send session msg).
Proof. frame. Qed.

Lemma has_role_keeps_factory u :
  keeps_factory (B:=B) (D:=D) (Router.has_role u).
Proof. frame. Qed.

Lemma has_role_keeps_identity u :
  keeps_identity (B:=B) (D:=D) (Router.has_role u).
Proof. frame. Qed.

Lemma validate_keeps_factory p u :
  keeps_factory (B:=B) (D:=D) (Router.validate p u).
Proof. frame. Qed.

Lemma validate_keeps_identity p u :
  keeps_identity (B:=B) (D:=D) (Router.validate p u).
Proof. frame. Qed.

Lemma authorize_keeps_factory session u a :
  keeps_factory (B:=B) (D:=D) (Router.authorize session u a).
Proof. frame. Qed.

Lemma authorize_keeps_identity session u a :
  keeps_identity (B:=B) (D:=D) (Router.authorize session u a).
Proof. frame. Qed.

Lemma add_role_keeps_factory role :
  keeps_factory (B:=B) (D:=D) (Router.add_role role).
Proof. frame. Qed.

Lemma drop_role_keeps_factory role :
  keeps_factory (B:=B) (D:=D) (Router.drop_role role).
Proof. frame. Qed.

Lemma add_role_keeps_identity role :
  keeps_identity (B:=B) (D:=D) (Router.add_role role).
Proof.
  frame. split; [done|]. apply lookup_insert_ne. by apply not_reserved.
Qed.

Lemma drop_role_keeps_identity role :
  keeps_identity (B:=B) (D:=D) (Router.drop_role role).
Proof.
  frame. split; [done|]. apply lookup_delete_ne. by apply not_reserved.
Qed.

Lemma process_keeps_factory session msg :
  keeps_factory (B:=B) (D:=D) (Router.process session msg).
Proof. frame. Qed.

Lemma process_keeps_identity session msg :
  keeps_identity (B:=B) (D:=D) (Router.process session msg).
Proof. frame. Qed.

Lemma detach_keeps_identity session :
  keeps_identity (B:=B) (D:=D) (Router.detach session).
Proof. frame. Qed.

(** [detach] is the one method that reaches the factory: either it
    leaves the factory and the number of [onLastDetach] calls alone, or
    the counter has reached zero and it has made one such call, which
    removed the realm of the router or failed its assertion. *)
Lemma detach_factory session e :
  let '(res, e') := Router.detach session e in
  (Router.factory e' = Router.factory e
   ∧ count_onLastDetach (Router.calls e')
     = count_onLastDetach (Router.calls e))
  ∨ (_attached (Router.self e') = 0
     ∧ count_onLastDetach (Router.calls e')
       = S (count_onLastDetach (Router.calls e))
     ∧ ((res = Ok tt
         ∧ _routers (Router.factory e')
           = delete (realm (Router.self e)) (_routers (Router.factory e)))
        ∨ (res = Raise AssertionError
           ∧ Router.factory e' = Router.factory e))).
Proof.
  destruct (_session_id_to_session (Router.self e) !! _session_id session)
    as [s0|] eqn:Hreg.
  - rewrite detach_passes by eauto.
    repeat case_bool_decide; cbn; rewrite ?count_onLastDetach_app; cbn.
    + right. split; [lia|]. split; [lia|]. by left.
    + right. split; [lia|]. split; [lia|]. by right.
    + left. split; [done|lia].
  - destruct (_is_client_session session) eqn:Hc.
    + destruct e as [r f l]. cbn in Hreg. run. cbn. rewrite Hreg, Hc.
      left. split; [done|]. cbn. rewrite !count_onLastDetach_app. cbn. lia.
    + rewrite detach_passes by eauto.
      repeat case_bool_decide; cbn; rewrite ?count_onLastDetach_app; cbn.
      * right. split; [lia|]. split; [lia|]. by left.
      * right. split; [lia|]. split; [lia|]. by right.
      * left. split; [done|lia].
Qed.
End RouterProperties.

Section WorldProperties.
Context {B D : Type} `{!BrokerClass B, !DealerClass D}.
Variable HAS_LMDB : bool.
Implicit Types (w : World B D) (e : Router.Env B D) (o : oid).

Lemma snd_discard {S A} (m : M S A) (s : S) : snd (discard m s) = snd (m s).
Proof. unfold discard, bind, ret. by destruct (m s) as [[a|x] s']. Qed.

Lemma fst_discard_ok {S A} (m : M S A) (s : S) :
  is_ok (fst (discard m s)) = is_ok (fst (m s)).
Proof. unfold discard, bind, ret. by destruct (m s) as [[a|x] s']. Qed.

Lemma on_router_some {A} o (m : M (Router.Env B D) A) w r :
  objects w !! o = Some r →
  RouterFactory.on_router o m w
  = (fst (m (env_of w r)),
     {| the_factory := Router.factory (snd (m (env_of w r)));
        objects := <[o := Router.self (snd (m (env_of w r)))]> (objects w);
        history := Router.calls (snd (m (env_of w r))) |}).
Proof.
  intros Ho. unfold RouterFactory.on_router, env_of. rewrite Ho.
  by destruct (m _).
Qed.

Lemma on_router_none {A} o (m : M (Router.Env B D) A) w :
  objects w !! o = None →
  RouterFactory.on_router o m w = (Raise NoSuchObject, w).
Proof. intros Ho. unfold RouterFactory.on_router. by rewrite Ho. Qed.

Lemma on_router_keeps_factory {A} o (m : M (Router.Env B D) A) w :
  keeps_factory m →
  the_factory (snd (RouterFactory.on_router o m w)) = the_factory w
  ∧ count_onLastDetach (history (snd (RouterFactory.on_router o m w)))
    = count_onLastDetach (history w).
Proof.
  intros Hm. destruct (objects w !! o) as [r|] eqn:Ho.
  - rewrite (on_router_some _ _ _ _ Ho). cbn. apply (Hm (env_of w r)).
  - by rewrite (on_router_none _ _ _ Ho).
Qed.

Lemma on_router_keeps_identity {A} o (m : M (Router.Env B D) A) w :
  keeps_identity m →
  length (objects (snd (RouterFactory.on_router o m w))) = length (objects w)
  ∧ ∀ o' r, objects w !! o' = Some r →
      ∃ r', objects (snd (RouterFactory.on_router o m w)) !! o' = Some r'
            ∧ realm r' = realm r
            ∧ _roles r' !! "trusted" = _roles r !! "trusted".
Proof.
  intros Hm. destruct (objects w !! o) as [r0|] eqn:Ho.
  - rewrite (on_router_some _ _ _ _ Ho). cbn. split.
    + by rewrite length_insert.
    + intros o' r Ho'. destruct (decide (o = o')) as [<-|Hne].
      * rewrite list_lookup_insert_eq by by eapply lookup_lt_Some.
        eexists. split; [done|]. rewrite Ho in Ho'. injection Ho' as <-.
        apply (Hm (env_of w r0)).
      * rewrite list_lookup_insert_ne by done. eauto.
  - rewrite (on_router_none _ _ _ Ho). cbn. eauto.
Qed.

(** [get] never changes the world: without auto-creation it only looks
    up, and with it the constructor raises before anything is stored. *)
Lemma get_world realm_ w : snd (RouterFactory.get realm_ w) = w.
Proof.
  unfold RouterFactory.get, RouterFactory.new_router, RouterFactory.lift.
  run. destruct (_auto_create_realms (the_factory w)); [|done].
  case_bool_decide; cbn; done.
Qed.

(** [start_realm] either raises and leaves the world as it was, or stores
    a fresh router under the realm's name. *)
Lemma start_realm_cases rr w :
  (∃ x, RouterFactory.start_realm HAS_LMDB rr w = (Raise x, w))
  ∨ (∃ r,
       RouterFactory.start_realm HAS_LMDB rr w
       = (Ok (length (objects w)),
          {| the_factory :=
               set_routers <[cfg_name (config rr) := length (objects w)]>
                 (the_factory w);
             objects := objects w ++ [r];
             history := history w |})
       ∧ (cfg_name (config rr) ∉ dom (_routers (the_factory w)))
       ∧ realm r = cfg_name (config rr)
       ∧ _attached r = 0
       ∧ _session_id_to_session r = ∅
       ∧ _roles r = {[ "trusted" := RouterTrustedRole "trusted" ]}).
Proof.
  unfold RouterFactory.start_realm, RouterFactory.new_router,
    RouterFactory.set_router, RouterFactory.set_the_factory. run.
  case_bool_decide as Hreg; cbn; [eauto|].
  destruct (cfg_store (config rr)) as [sc|]; cbn.
  - case_bool_decide; cbn.
    + destruct HAS_LMDB; cbn; [|eauto].
      destruct (cfg_mqtt_payload_format (config rr)) as [fmt|]; cbn.
      * case_bool_decide; cbn; [|eauto]. right. eexists. split; [done|].
        repeat split; done.
      * right. eexists. split; [done|]. repeat split; done.
    + case_bool_decide; cbn; [|eauto].
      destruct (cfg_mqtt_payload_format (config rr)) as [fmt|]; cbn.
      * case_bool_decide; cbn; [|eauto]. right. eexists. split; [done|].
        repeat split; done.
      * right. eexists. split; [done|]. repeat split; done.
  - destruct (cfg_mqtt_payload_format (config rr)) as [fmt|]; cbn.
    + case_bool_decide; cbn; [|eauto]. right. eexists. split; [done|].
      repeat split; done.
    + right. eexists. split; [done|]. repeat split; done.
Qed.

Lemma factory_add_role_world realm_ c w :
  snd (RouterFactory.add_role realm_ c w) = w
  ∨ ∃ o role,
      snd (RouterFactory.add_role realm_ c w)
      = snd (RouterFactory.on_router o (Router.add_role role) w).
Proof.
  cbv [RouterFactory.add_role RouterFactory.lift getitem bind ret assert
       get_state raise].
  case_bool_decide as Hreg; cbn [fst snd]; [|by left].
  apply elem_of_dom in Hreg as [o Ho]. rewrite Ho. right.
  match goal with
  | |- context [Router.add_role ?role] => exists o, role
  end.
  by destruct (RouterFactory.on_router _ _ _) as [[?|?] ?].
Qed.

(** What an operation does to the realm registry: it keeps every
    registered realm and makes no [onLastDetach] call, unless it is a
    [detach] that has brought a router's counter to zero and has made
    exactly one such call, for the realm of that router. *)
Lemma run_op_registry op w :
  ((∀ u, u ∈ dom (_routers (the_factory w)) →
         u ∈ dom (_routers (the_factory (snd (run_op HAS_LMDB op w)))))
   ∧ count_onLastDetach (history (snd (run_op HAS_LMDB op w)))
     = count_onLastDetach (history w))
  ∨ (∃ o s r r',
       op = op_detach o s
       ∧ objects w !! o = Some r
       ∧ objects (snd (run_op HAS_LMDB op w)) !! o = Some r'
       ∧ realm r' = realm r
       ∧ _attached r' = 0
       ∧ count_onLastDetach (history (snd (run_op HAS_LMDB op w)))
         = S (count_onLastDetach (history w))
       ∧ ((fst (run_op HAS_LMDB op w) = Ok tt
           ∧ _routers (the_factory (snd (run_op HAS_LMDB op w)))
             = delete (realm r) (_routers (the_factory w)))
          ∨ (fst (run_op HAS_LMDB op w) = Raise AssertionError
             ∧ the_factory (snd (run_op HAS_LMDB op w)) = the_factory w))).
Proof.
  assert (Hkeep : ∀ {A} o (m : M (Router.Env B D) A),
    keeps_factory m →
    (∀ u, u ∈ dom (_routers (the_factory w)) →
          u ∈ dom (_routers (the_factory
                               (snd (RouterFactory.on_router o m w)))))
    ∧ count_onLastDetach (history (snd (RouterFactory.on_router o m w)))
      = count_onLastDetach (history w)).
  { intros A o m Hm.
    destruct (on_router_keeps_factory o m w Hm) as [-> ->]. done. }
  destruct op; cbn [run_op]; rewrite ?snd_discard.
  - left. apply Hkeep, attach_keeps_factory.
  - destruct (objects w !! o) as [r|] eqn:Ho.
    + rewrite (on_router_some _ _ _ _ Ho). cbn [fst snd the_factory history objects].
      pose proof (detach_factory s (env_of w r)) as Hd.
      pose proof (detach_keeps_identity s (env_of w r)) as [Hrealm _].
      destruct (Router.detach s (env_of w r)) as [res e'].
      cbn [fst snd] in *. destruct Hd as [[-> ->]|(H0 & Hcnt & Hres)].
      * by left.
      * right. exists o, s, r, (Router.self e').
        split; [done|]. split; [done|].
        split; [apply list_lookup_insert_eq; by eapply lookup_lt_Some|].
        split; [done|]. split; [done|]. split; [done|].
        destruct Hres as [[-> ?]|[-> ?]]; [left|right]; done.
    + rewrite (on_router_none _ _ _ Ho). by left.
  - left. apply Hkeep, send_keeps_factory.
  - left. apply Hkeep, process_keeps_factory.
  - left. apply Hkeep, has_role_keeps_factory.
  - left. apply Hkeep, add_role_keeps_factory.
  - left. apply Hkeep, drop_role_keeps_factory.
  - left. apply Hkeep, authorize_keeps_factory.
  - left. apply Hkeep, validate_keeps_factory.
  - left. by rewrite get_world.
  - left. done.
  - left. done.
  - left. destruct (start_realm_cases realm_ w) as [[x ->]|(r & -> & _)];
      [done|]. cbn. split; [|done]. intros u Hu.
    rewrite dom_insert_L. apply elem_of_union. by right.
  - left. done.
  - left. destruct (factory_add_role_world realm_ c w) as [->|(o & role & ->)];
      [done|]. apply Hkeep, add_role_keeps_factory.
  - left. done.
  - left. done.
  - left. done.
Qed.

(** What an operation does to the router objects: every object stays,
    with its realm name and its trusted role, and an object it creates
    has the trusted role. *)
Lemma run_op_objects op w :
  (∀ o r, objects w !! o = Some r →
     ∃ r', objects (snd (run_op HAS_LMDB op w)) !! o = Some r'
           ∧ realm r' = realm r
           ∧ _roles r' !! "trusted" = _roles r !! "trusted")
  ∧ (∀ o r', objects (snd (run_op HAS_LMDB op w)) !! o = Some r' →
       objects w !! o = None →
       _roles r' !! "trusted" = Some (RouterTrustedRole "trusted")).
Proof.
  assert (Hsame : ∀ w', objects w' = objects w →
    (∀ o r, objects w !! o = Some r →
       ∃ r', objects w' !! o = Some r' ∧ realm r' = realm r
             ∧ _roles r' !! "trusted" = _roles r !! "trusted")
    ∧ (∀ o r', objects w' !! o = Some r' → objects w !! o = None →
         _roles r' !! "trusted" = Some (RouterTrustedRole "trusted"))).
  { intros w' ->. split; [eauto|]. intros o r' Ho Hn. congruence. }
  assert (Hkeep : ∀ {A} o (m : M (Router.Env B D) A),
    keeps_identity m →
    (∀ o' r, objects w !! o' = Some r →
       ∃ r', objects (snd (RouterFactory.on_router o m w)) !! o' = Some r'
             ∧ realm r' = realm r
             ∧ _roles r' !! "trusted" = _roles r !! "trusted")
    ∧ (∀ o' r', objects (snd (RouterFactory.on_router o m w)) !! o' = Some r' →
         objects w !! o' = None →
         _roles r' !! "trusted" = Some (RouterTrustedRole "trusted"))).
  { intros A o m Hm.
    destruct (on_router_keeps_identity o m w Hm) as [Hlen Hobj].
    split; [done|]. intros o' r' Ho' Hn.
    apply lookup_lt_Some in Ho'. apply lookup_ge_None in Hn. lia. }
  destruct op; cbn [run_op]; rewrite ?snd_discard.
  - apply Hkeep, attach_keeps_identity.
  - apply Hkeep, detach_keeps_identity.
  - apply Hkeep, send_keeps_identity.
  - apply Hkeep, process_keeps_identity.
  - apply Hkeep, has_role_keeps_identity.
  - apply Hkeep, add_role_keeps_identity.
  - apply Hkeep, drop_role_keeps_identity.
  - apply Hkeep, authorize_keeps_identity.
  - apply Hkeep, validate_keeps_identity.
  - rewrite get_world. by apply Hsame.
  - by apply Hsame.
  - by apply Hsame.
  - destruct (start_realm_cases realm_ w)
      as [[x ->]|(r & -> & _ & _ & _ & _ & Hroles)]; [by apply Hsame|].
    cbn. split.
    + intros o r0 Ho. exists r0. split; [|done].
      by apply lookup_app_l_Some.
    + intros o r' Ho Hn. apply lookup_ge_None in Hn.
      rewrite lookup_app_r in Ho by done.
      apply list_lookup_singleton_Some in Ho as [_ <-].
      by rewrite Hroles, lookup_singleton_eq.
  - by apply Hsame.
  - destruct (factory_add_role_world realm_ c w) as [->|(o & role & ->)];
      [by apply Hsame|]. apply Hkeep, add_role_keeps_identity.
  - by apply Hsame.
  - by apply Hsame.
  - by apply Hsame.
Qed.

Lemma run_op_all_trusted op w :
  all_trusted w → all_trusted (snd (run_op HAS_LMDB op w)).
Proof.
  intros Hw o r' Ho. destruct (run_op_objects op w) as [Hold Hnew].
  destruct (objects w !! o) as [r|] eqn:Hwo.
  - destruct (Hold o r Hwo) as (r1 & Hr1 & _ & Htr).
    pose proof (eq_trans (eq_sym Ho) Hr1) as Heq. injection Heq as ->.
    rewrite Htr. by eapply Hw.
  - by eapply Hnew.
Qed.

Lemma run_ops_all_trusted ops : ∀ w,
  all_trusted w → all_trusted (run_ops HAS_LMDB ops w).
Proof.
  induction ops as [|op ops IH]; intros w Hw; [done|].
  cbn. by apply IH, run_op_all_trusted.
Qed.

(** *** The life of a realm *)

Lemma attach_then_detach e session :
  _attached (Router.self e) = 0 →
  _session_id_to_session (Router.self e) !! _session_id session = None →
  live e →
  ∃ e', (_ <- Router.attach session ;; Router.detach session) e = (Ok tt, e')
        ∧ _attached (Router.self e') = 0
        ∧ count_onLastDetach (Router.calls e')
          = S (count_onLastDetach (Router.calls e))
        ∧ _routers (Router.factory e')
          = delete (realm (Router.self e)) (_routers (Router.factory e))
        ∧ realm (Router.self e) ∉ dom (_routers (Router.factory e')).
Proof.
  intros H0 Hout Hlive. unfold bind at 1.
  destruct (attach_unregistered e session Hout) as [feats ->].
  rewrite detach_passes; cbn [Router.self Router.factory Router.calls].
  - rewrite bool_decide_eq_true_2
      by (destruct (_is_client_session session); cbn; lia).
    assert (Hrealm : ∀ r1 : Router B D,
              realm (Router.with_attached (fun n => n + 1)
                       (Router.with_dealer (Dealer_attach session)
                          (Router.with_broker (Broker_attach session) r1)))
              = realm r1) by done.
    rewrite !Hrealm.
    replace (realm (if _is_client_session session
                    then Router.with_sessions
                           <[_session_id session := session]> (Router.self e)
                    else Router.self e))
      with (realm (Router.self e))
      by by destruct (_is_client_session session).
    rewrite (bool_decide_eq_true_2 _ Hlive).
    eexists. split; [reflexivity|]. cbn.
    split; [destruct (_is_client_session session); cbn; lia|].
    split; [rewrite !count_onLastDetach_app; cbn; lia|].
    split; [done|]. apply not_elem_of_dom, lookup_delete_eq.
  - destruct (_is_client_session session); [left|by right].
    cbn. rewrite lookup_insert_eq. eauto.
Qed.

Lemma start_realm_registers rr w o w1 :
  RouterFactory.start_realm HAS_LMDB rr w = (Ok o, w1) →
  _routers (the_factory w1) !! cfg_name (config rr) = Some o
  ∧ ∃ r, objects w1 !! o = Some r
         ∧ realm r = cfg_name (config rr)
         ∧ _attached r = 0
         ∧ _session_id_to_session r = ∅
         ∧ live (env_of w1 r).
Proof.
  intros Hs.
  destruct (start_realm_cases rr w)
    as [[x Hx]|(r & Hr & _ & Hrealm & H0 & Hreg & _)]; [congruence|].
  rewrite Hr in Hs. injection Hs as <- <-. cbn. split.
  - apply lookup_insert_eq.
  - exists r. split; [apply list_lookup_middle; done|].
    repeat split; try done. unfold live. cbn. rewrite Hrealm.
    rewrite dom_insert_L. apply elem_of_union. left.
    by apply elem_of_singleton.
Qed.

Lemma sole_destruction_path op w u :
  u ∈ dom (_routers (the_factory w)) →
  u ∉ dom (_routers (the_factory (snd (run_op HAS_LMDB op w)))) →
  ∃ o s r',
    op = op_detach o s
    ∧ fst (run_op HAS_LMDB op w) = Ok tt
    ∧ objects (snd (run_op HAS_LMDB op w)) !! o = Some r'
    ∧ realm r' = u
    ∧ _attached r' = 0
    ∧ count_onLastDetach (history (snd (run_op HAS_LMDB op w)))
      = S (count_onLastDetach (history w)).
Proof.
  intros Hin Hout.
  destruct (run_op_registry op w)
    as [[Hkeep _]|(o & s & r & r' & -> & Ho & Ho' & Hrealm & H0 & Hcnt & Hres)].
  - destruct Hout. by apply Hkeep.
  - destruct Hres as [[Hok Hdel]|[_ Hsame]].
    + exists o, s, r'. repeat split; try done.
      rewrite Hdel, dom_delete_L in Hout.
      destruct (decide (realm r = u)) as [<-|Hne]; [done|].
      destruct Hout. apply elem_of_difference. split; [done|].
      by apply not_elem_of_singleton.
    + rewrite Hsame in Hout. done.
Qed.

Lemma at_most_one_onLastDetach op w :
  (count_onLastDetach (history (snd (run_op HAS_LMDB op w)))
   ≤ S (count_onLastDetach (history w)))%nat.
Proof.
  destruct (run_op_registry op w)
    as [[_ ->]|(o & s & r & r' & _ & _ & _ & _ & _ & -> & _)]; lia.
Qed.

Lemma removed_by_its_router op w u o0 :
  _routers (the_factory w) !! u = Some o0 →
  (∀ o' r', objects w !! o' = Some r' → realm r' = u → o' = o0) →
  u ∉ dom (_routers (the_factory (snd (run_op HAS_LMDB op w)))) →
  ∃ s r0,
    op = op_detach o0 s
    ∧ fst (run_op HAS_LMDB op w) = Ok tt
    ∧ objects (snd (run_op HAS_LMDB op w)) !! o0 = Some r0
    ∧ realm r0 = u
    ∧ _attached r0 = 0.
Proof.
  intros Hreg Huniq Hout.
  assert (Hin : u ∈ dom (_routers (the_factory w)))
    by (apply elem_of_dom; eauto).
  destruct (run_op_registry op w)
    as [[Hkeep _]|(o & s & r & r' & -> & Ho & Ho' & Hrealm & H0 & _ & Hres)].
  - destruct Hout. by apply Hkeep.
  - destruct Hres as [[Hok Hdel]|[_ Hsame]].
    + destruct (decide (realm r = u)) as [Hu|Hne].
      * assert (o = o0) as -> by (by eapply Huniq).
        exists s, r'. repeat split; try done. congruence.
      * destruct Hout. rewrite Hdel, dom_delete_L.
        apply elem_of_difference. split; [done|].
        apply not_elem_of_singleton. congruence.
    + rewrite Hsame in Hout. done.
Qed.

(** C6. On a router that has no attached session and whose realm is
    registered with its factory, [attach] followed by [detach] of a
    session returns with the counter back at zero, having made exactly
    one [onLastDetach] call, after which the realm is no longer in the
    factory's registry.  A realm that [start_realm] has created is
    registered, with such a router.  [onLastDetach] is the sole destruction
    path, and it deletes by realm name: an operation of the core takes a
    registered realm out of the registry only when it is a [detach] that
    returns with the counter of a router object of that realm name at zero
    and has made exactly one [onLastDetach] call; that object is the
    registered router itself when no other router object of the world
    carries the name.  No operation makes more than one such call. *)
Theorem last_detach_removes_realm e session :
  _attached (Router.self e) = 0 →
  _session_id_to_session (Router.self e) !! _session_id session = None →
  live e →
  (∃ e', (_ <- Router.attach session ;; Router.detach session) e = (Ok tt, e')
         ∧ _attached (Router.self e') = 0
         ∧ count_onLastDetach (Router.calls e')
           = S (count_onLastDetach (Router.calls e))
         ∧ _routers (Router.factory e')
           = delete (realm (Router.self e)) (_routers (Router.factory e))
         ∧ realm (Router.self e) ∉ dom (_routers (Router.factory e')))
  ∧ (∀ rr w o w1,
       RouterFactory.start_realm HAS_LMDB rr w = (Ok o, w1) →
       _routers (the_factory w1) !! cfg_name (config rr) = Some o
       ∧ ∃ r, objects w1 !! o = Some r
              ∧ realm r = cfg_name (config rr)
              ∧ _attached r = 0
              ∧ _session_id_to_session r = ∅
              ∧ live (env_of w1 r))
  ∧ (∀ op w u,
       u ∈ dom (_routers (the_factory w)) →
       u ∉ dom (_routers (the_factory (snd (run_op HAS_LMDB op w)))) →
       ∃ o s r',
         op = op_detach o s
         ∧ fst (run_op HAS_LMDB op w) = Ok tt
         ∧ objects (snd (run_op HAS_LMDB op w)) !! o = Some r'
         ∧ realm r' = u
         ∧ _attached r' = 0
         ∧ count_onLastDetach (history (snd (run_op HAS_LMDB op w)))
           = S (count_onLastDetach (history w)))
  ∧ (∀ op w u o0,
       _routers (the_factory w) !! u = Some o0 →
       (∀ o' r', objects w !! o' = Some r' → realm r' = u → o' = o0) →
       u ∉ dom (_routers (the_factory (snd (run_op HAS_LMDB op w)))) →
       ∃ s r0,
         op = op_detach o0 s
         ∧ fst (run_op HAS_LMDB op w) = Ok tt
         ∧ objects (snd (run_op HAS_LMDB op w)) !! o0 = Some r0
         ∧ realm r0 = u
         ∧ _attached r0 = 0)
  ∧ (∀ op w,
       (count_onLastDetach (history (snd (run_op HAS_LMDB op w)))
        ≤ S (count_onLastDetach (history w)))%nat).
Proof.
  intros H0 Hout Hlive. split; [by apply attach_then_detach|].
  split; [apply start_realm_registers|].
  split; [apply sole_destruction_path|].
  split; [apply removed_by_its_router|apply at_most_one_onLastDetach].
Qed.

Lemma has_role_trusted (r : Router B D) f l :
  is_Some (_roles r !! "trusted") →
  Router.has_role "trusted"
    {| Router.self := r; Router.factory := f; Router.calls := l |}
  = (Ok true, {| Router.self := r; Router.factory := f; Router.calls := l |}).
Proof.
  intros Hr. run. cbn. rewrite bool_decide_eq_true_2; [done|].
  by apply elem_of_dom.
Qed.

Lemma reserved_role_rejected e role :
  uri role = "trusted" →
  Router.add_role role e = (Raise (ReservedRole "add" "trusted"), e)
  ∧ Router.drop_role role e = (Raise (ReservedRole "drop" "trusted"), e).
Proof.
  intros Hu. run. rewrite Hu.
  rewrite bool_decide_eq_true_2 by by apply list_elem_of_singleton.
  done.
Qed.

(** C7. A freshly constructed router has exactly the role [trusted] in
    its role registry and [has_role('trusted')] answers [True].
    [add_role] and [drop_role] of a role whose URI is [trusted] raise the
    reserved-role exception whatever the router's state, which they leave
    as it was.  No operation of the core changes the entry of a router
    under [trusted], so that after any sequence of operations every
    router, old or new, still has the built-in trusted role and
    [has_role('trusted')] still answers [True]. *)
Theorem trusted_role_reserved rr options store fmt e role ops w :
  uri role = "trusted" →
  all_trusted w →
  (∃ r : Router B D,
      Router.__init__ (RealmObject rr) options store fmt = Ok r
      ∧ _roles r = {[ "trusted" := RouterTrustedRole "trusted" ]}
      ∧ ∀ f l,
          Router.has_role "trusted"
            {| Router.self := r; Router.factory := f; Router.calls := l |}
          = (Ok true,
             {| Router.self := r; Router.factory := f; Router.calls := l |}))
  ∧ Router.add_role role e = (Raise (ReservedRole "add" "trusted"), e)
  ∧ Router.drop_role role e = (Raise (ReservedRole "drop" "trusted"), e)
  ∧ (∀ op o r0,
       objects w !! o = Some r0 →
       ∃ r1, objects (snd (run_op HAS_LMDB op w)) !! o = Some r1
             ∧ _roles r1 !! "trusted" = _roles r0 !! "trusted")
  ∧ all_trusted (run_ops HAS_LMDB ops w)
  ∧ (∀ f, all_trusted
            (run_ops HAS_LMDB ops
               {| the_factory := f; objects := []; history := [] |}))
  ∧ (∀ o r f l,
       objects (run_ops HAS_LMDB ops w) !! o = Some r →
       Router.has_role "trusted"
         {| Router.self := r; Router.factory := f; Router.calls := l |}
       = (Ok true,
          {| Router.self := r; Router.factory := f; Router.calls := l |})).
Proof.
  intros Hu Hw. split; [|split; [|split; [|split; [|split; [|split]]]]].
  - eexists. split; [reflexivity|]. split; [done|]. intros f l.
    apply has_role_trusted. cbn. rewrite lookup_singleton_eq. eauto.
  - by apply reserved_role_rejected.
  - by apply reserved_role_rejected.
  - intros op o r0 Ho. destruct (run_op_objects op w) as [Hold _].
    destruct (Hold o r0 Ho) as (r1 & ? & _ & ?). eauto.
  - by apply run_ops_all_trusted.
  - intros f. apply run_ops_all_trusted. intros o r Ho. done.
  - intros o r f l Ho. apply has_role_trusted.
    erewrite (run_ops_all_trusted ops w Hw); eauto.
Qed.

Lemma start_realm_raises_unchanged rr x w w' :
  RouterFactory.start_realm HAS_LMDB rr w = (Raise x, w') → w' = w.
Proof.
  intros Hs. destruct (start_realm_cases rr w) as [[y Hy]|(r & Hr & _)];
    congruence.
Qed.

(** C8. [start_realm] registers nothing when the configuration is
    refused.  For a realm name that is not registered: a configuration
    whose store is of type [lmdb] raises the backend-unavailable
    exception on a deployment without LMDB, and a configuration whose
    [mqtt_payload_format] is none of [opaque], [json] and [cbor] (its
    store section, if any, being one that can be set up) raises the
    invalid-configuration exception; in both cases the world is exactly
    as before, so that the name is still not registered.  More generally
    the world is unchanged whenever [start_realm] raises. *)
Theorem start_realm_atomic w rl sc rm fmt :
  cfg_name (config rl) ∉ dom (_routers (the_factory w)) →
  cfg_store (config rl) = Some sc →
  store_type sc = "lmdb" →
  cfg_name (config rm) ∉ dom (_routers (the_factory w)) →
  store_available HAS_LMDB (config rm) →
  cfg_mqtt_payload_format (config rm) = Some fmt →
  fmt ∉ ["opaque"; "json"; "cbor"] →
  RouterFactory.start_realm false rl w = (Raise BackendUnavailable, w)
  ∧ RouterFactory.start_realm HAS_LMDB rm w = (Raise InvalidConfig, w)
  ∧ (cfg_name (config rl)
     ∉ dom (_routers (the_factory
                        (snd (RouterFactory.start_realm false rl w)))))
  ∧ (cfg_name (config rm)
     ∉ dom (_routers (the_factory
                        (snd (RouterFactory.start_realm HAS_LMDB rm w)))))
  ∧ (∀ rr x w',
       RouterFactory.start_realm HAS_LMDB rr w = (Raise x, w') → w' = w).
Proof.
  intros Hl Hsc Hty Hm Hst Hfmt Hbad.
  assert (H1 : RouterFactory.start_realm false rl w
               = (Raise BackendUnavailable, w)).
  { unfold RouterFactory.start_realm. run.
    rewrite (bool_decide_eq_false_2 _ Hl). cbn. rewrite Hsc.
    rewrite (bool_decide_eq_true_2 _ Hty). reflexivity. }
  assert (H2 : RouterFactory.start_realm HAS_LMDB rm w
               = (Raise InvalidConfig, w)).
  { unfold RouterFactory.start_realm. run.
    rewrite (bool_decide_eq_false_2 _ Hm). cbn. rewrite Hfmt.
    rewrite (bool_decide_eq_false_2 _ Hbad). cbn.
    unfold store_available in Hst.
    destruct (cfg_store (config rm)) as [sc'|]; [|done].
    destruct Hst as [[Hty' ->]|Hty'].
    - rewrite (bool_decide_eq_true_2 _ Hty'). done.
    - rewrite bool_decide_eq_false_2 by (rewrite Hty'; done).
      rewrite (bool_decide_eq_true_2 _ Hty'). done. }
  rewrite H1, H2. cbn. repeat split; try done.
  intros rr x w'. apply start_realm_raises_unchanged.
Qed.

(** *** [RouterFactory.get] *)

Lemma get_without_auto_create realm_ w :
  _auto_create_realms (the_factory w) = false →
  RouterFactory.get realm_ w
  = (match _routers (the_factory w) !! realm_ with
     | Some o => Ok o
     | None => Raise (NotFound realm_)
     end, w).
Proof.
  intros Hoff. unfold RouterFactory.get, RouterFactory.lift, getitem. run.
  rewrite Hoff. by destruct (_routers (the_factory w) !! realm_).
Qed.

Lemma get_auto_create_registered realm_ w o :
  _auto_create_realms (the_factory w) = true →
  _routers (the_factory w) !! realm_ = Some o →
  RouterFactory.get realm_ w = (Ok o, w).
Proof.
  intros Hon Ho. unfold RouterFactory.get, RouterFactory.lift, getitem. run.
  rewrite Hon. rewrite bool_decide_eq_true_2 by (apply elem_of_dom; eauto).
  cbn. by rewrite Ho.
Qed.

(** With auto-creation on, [get] of an unregistered realm URI passes the
    URI to the router constructor, which reads [realm.config]: the call
    raises and nothing is registered. *)
Lemma get_auto_create_unregistered realm_ w :
  _auto_create_realms (the_factory w) = true →
  realm_ ∉ dom (_routers (the_factory w)) →
  RouterFactory.get realm_ w = (Raise (AttributeError "config"), w).
Proof.
  intros Hon Hout.
  unfold RouterFactory.get, RouterFactory.new_router, RouterFactory.lift.
  run. rewrite Hon. rewrite (bool_decide_eq_false_2 _ Hout). reflexivity.
Qed.
End WorldProperties.

(** ** The statements on the sample world *)

(** C9. Without auto-creation [get] returns the router registered for the
    realm URI and raises the not-found exception (a [KeyError]) when there is
    none.  With auto-creation on and no router registered for the URI,
    however, [get] does not construct, register and return a router: it hands
    the URI string to [Router.__init__], which reads [realm.config] from it,
    so the call raises an [AttributeError] and the registry stays empty. *)
Theorem get_auto_create_raises :
  RouterFactory.get "realm1" world1 = (Ok 0%nat, world1)
  ∧ RouterFactory.get "realm2" world1 = (Raise (NotFound "realm2"), world1)
  ∧ _auto_create_realms (the_factory world_auto) = true
  ∧ _routers (the_factory world_auto) !! "realm1" = None
  ∧ RouterFactory.get "realm1" world_auto
    = (Raise (AttributeError "config"), world_auto)
  ∧ (∀ realm_,
       RouterFactory.get realm_ world_auto
       = (Raise (AttributeError "config"), world_auto))
  ∧ _routers (the_factory (snd (RouterFactory.get "realm1" world_auto)))
      !! "realm1" = None
  ∧ objects (snd (RouterFactory.get "realm1" world_auto)) = [].
Proof.
  assert (Hauto : RouterFactory.get "realm1" world_auto
                  = (Raise (AttributeError "config"), world_auto)).
  { apply get_auto_create_unregistered; [done|].
    apply not_elem_of_dom. reflexivity. }
  split; [|split; [|split; [|split; [|split; [|split; [|split]]]]]].
  - rewrite get_without_auto_create by reflexivity.
    by vm_compute (_routers (the_factory world1) !! "realm1").
  - rewrite get_without_auto_create by reflexivity.
    by vm_compute (_routers (the_factory world1) !! "realm2").
  - reflexivity.
  - reflexivity.
  - exact Hauto.
  - intros realm_. apply get_auto_create_unregistered; [done|].
    apply not_elem_of_dom. reflexivity.
  - rewrite Hauto. reflexivity.
  - rewrite Hauto. reflexivity.
Qed.

Lemma live_env1 : live env1.
Proof. unfold live. apply elem_of_dom. vm_compute. eauto. Defined.

Lemma all_trusted_world1 : all_trusted world1.
Proof.
  intros o r Ho. destruct o as [|o]; [|vm_compute in Ho; discriminate].
  vm_compute in Ho. injection Ho as <-. reflexivity.
Defined.

Lemma authorize_unknown_role_denies_witness :
  ∃ d, Router.authorize client_session "com.example.topic" "subscribe" env1
       = (Ok (FutureSuccess (AuthDict d)), env1)
       ∧ d !! "allow" = Some (PyBool false)
       ∧ d = normalized false "subscribe".
Proof.
  apply (authorize_unknown_role_denies env1 client_session
           "com.example.topic" "subscribe").
  - unfold valid_action. auto.
  - vm_compute. reflexivity.
Defined.

Lemma authorize_normalizes_bool_witness :
  Router.authorize internal_session "com.example.add" "call" env1
  = (Ok (FutureSuccess (AuthDict (normalized true "call"))),
     snd (Router.raw_authorization internal_session "com.example.add" "call"
            env1)).
Proof.
  apply (authorize_normalizes_bool env1 _ internal_session
           "com.example.add" "call" true).
  - unfold valid_action. auto.
  - vm_compute. reflexivity.
Defined.

Lemma attach_duplicate_fails_witness :
  ∃ e', Router.attach client_session (snd (Router.attach client_session env1))
        = (Raise (DuplicateAttach 7001), e')
        ∧ e' = snd (Router.attach client_session env1)
        ∧ _session_id_to_session (Router.self e') !! 7001
          = Some client_session
        ∧ entries_for 7001 (_session_id_to_session (Router.self e')) = 1%nat.
Proof.
  apply (attach_duplicate_fails (snd (Router.attach client_session env1))
           client_session client_session).
  vm_compute. reflexivity.
Defined.

Lemma detach_unattached_client_fails_witness :
  ∃ e', Router.detach client_session env1 = (Raise (NotAttached 7001), e')
        ∧ _attached (Router.self e') = 0.
Proof.
  destruct (detach_unattached_client_fails env1 client_session)
    as (e' & He' & _ & _ & _ & Hcnt & _).
  - reflexivity.
  - vm_compute. reflexivity.
  - exists e'. split; [exact He'|]. rewrite Hcnt. reflexivity.
Defined.

Lemma last_detach_removes_realm_witness :
  ∃ e', (_ <- Router.attach client_session ;; Router.detach client_session)
          env1 = (Ok tt, e')
        ∧ _attached (Router.self e') = 0
        ∧ count_onLastDetach (Router.calls e') = 1%nat
        ∧ "realm1" ∉ dom (_routers (Router.factory e')).
Proof.
  destruct (last_detach_removes_realm false env1 client_session)
    as [(e' & He' & H0 & Hcnt & _ & Hgone) _].
  - vm_compute. reflexivity.
  - vm_compute. reflexivity.
  - exact live_env1.
  - exists e'. split; [exact He'|]. split; [exact H0|].
    split; [exact Hcnt|exact Hgone].
Defined.

Lemma trusted_role_reserved_witness :
  Router.add_role (RouterTrustedRole "trusted") env1
  = (Raise (ReservedRole "add" "trusted"), env1)
  ∧ Router.drop_role (RouterRole "trusted" true) env1
    = (Raise (ReservedRole "drop" "trusted"), env1)
  ∧ all_trusted
      (run_ops false
         [op_add_role 0%nat (RouterRole "trusted" false);
          op_drop_role 0%nat (RouterTrustedRole "trusted");
          op_factory_add_role "realm1"
            {| role_name := "trusted"; role_permissions := None;
               role_authorizer := None; role_allow_by_default := Some false |}]
         world1).
Proof.
  split; [|split].
  - apply (trusted_role_reserved false realm1 None None None env1
             (RouterTrustedRole "trusted") [] world1);
      [reflexivity|exact all_trusted_world1].
  - apply (trusted_role_reserved false realm1 None None None env1
             (RouterRole "trusted" true) [] world1);
      [reflexivity|exact all_trusted_world1].
  - apply (trusted_role_reserved false realm1 None None None env1
             (RouterTrustedRole "trusted") _ world1);
      [reflexivity|exact all_trusted_world1].
Defined.

Lemma start_realm_atomic_witness :
  RouterFactory.start_realm false realm1_lmdb world0
  = (Raise BackendUnavailable, world0)
  ∧ RouterFactory.start_realm false realm1_xml world0
    = (Raise InvalidConfig, world0).
Proof.
  destruct (start_realm_atomic false world0 realm1_lmdb
              {| store_type := "lmdb" |} realm1_xml "xml")
    as (H1 & H2 & _).
  - apply not_elem_of_dom. reflexivity.
  - reflexivity.
  - reflexivity.
  - apply not_elem_of_dom. reflexivity.
  - exact I.
  - reflexivity.
  - apply (bool_decide_unpack _). vm_compute. exact I.
  - split; [exact H1|exact H2].
Defined.

Lemma nonclient_session_unchecked_witness :
  (∃ en, attach_times 3 internal_session env1 = (true, en)
         ∧ _attached (Router.self en) = 3
         ∧ _session_id_to_session (Router.self en) = ∅)
  ∧ (∃ e2, Router.detach internal_session env1 = (Ok tt, e2)
           ∧ (_attached (Router.self e2) < 0)%Z).
Proof.
  destruct (nonclient_session_unchecked env1 internal_session
              internal_session 3)
    as (_ & (en & Hen & Hcnt & Hreg) & _ & _ & Hret & _).
  - reflexivity.
  - vm_compute. reflexivity.
  - reflexivity.
  - destruct Hret as (e2 & He2 & _ & Hneg); [right; exact live_env1|].
    split.
    + exists en. split; [exact Hen|]. split; [exact Hcnt|exact Hreg].
    + exists e2. split; [exact He2|]. apply Hneg. vm_compute. discriminate.
Defined.

(** C6, as first stated, fails: a realm that [start_realm] has created
    does not always stay registered until its own router reaches zero.  In
    [world_restarted] the name [realm1] is bound to the second router,
    which has one attached session; the detach of the internal session from
    the first, stale router of that name returns, and [realm1] is no longer
    registered although the second router still has its session. *)
Lemma stale_router_unregisters_restarted_realm :
  _routers (the_factory world_restarted) !! "realm1" = Some 1%nat
  ∧ (realm <$> objects world_restarted !! 0%nat) = Some "realm1"
  ∧ (realm <$> objects world_restarted !! 1%nat) = Some "realm1"
  ∧ (_attached <$> objects world_restarted !! 1%nat) = Some 1
  ∧ fst (run_op false (op_detach 0%nat internal_session) world_restarted)
    = Ok tt
  ∧ _routers (the_factory
                (snd (run_op false (op_detach 0%nat internal_session)
                        world_restarted))) !! "realm1" = None
  ∧ (_attached
       <$> objects (snd (run_op false (op_detach 0%nat internal_session)
                           world_restarted)) !! 1%nat) = Some 1.
Proof. vm_compute. repeat split. Qed.

(** C10, as first stated, fails: the detach of a session without client
    details can raise.  In [world_torn_down] the realm of the router is no
    longer registered and the router has one attached session; the detach
    of the internal session, which never attached, brings the counter to
    zero and raises the [AssertionError] of [onLastDetach]. *)
Lemma nonclient_detach_raises_after_teardown :
  _is_client_session internal_session = false
  ∧ _routers (the_factory world_torn_down) !! "realm1" = None
  ∧ (_attached <$> objects world_torn_down !! 0%nat) = Some 1
  ∧ (_session_id_to_session <$> objects world_torn_down !! 0%nat)
    = Some {[ 7001 := client_session ]}
  ∧ fst (run_op false (op_detach 0%nat internal_session) world_torn_down)
    = Raise AssertionError
  ∧ (_attached
       <$> objects (snd (run_op false (op_detach 0%nat internal_session)
                           world_torn_down)) !! 0%nat) = Some 0.
Proof. vm_compute. repeat split. Qed.

(** The end-to-end run of the specification: realm [r1] is started, session
    A attaches, a Subscribe and a Publish of A reach the Broker in that
    order, A detaches, and the realm is no longer registered. *)
Example end_to_end :
  let r1 := {| config := {| cfg_name := "r1"; cfg_store := None;
                            cfg_mqtt_payload_format := None |} |} in
  let A := {| _session_id := 1; _authid := "a"; _authrole := "trusted";
              _session_details := Some {| details_realm := "r1" |} |} in
  let sub := {| msg_class := Subscribe; request_type := 0;
                msg_fields := ["t"] |} in
  let pub := {| msg_class := Publish; request_type := 0;
                msg_fields := ["t"] |} in
  let w := run_ops false
             [op_factory_start_realm r1; op_attach 0%nat A;
              op_process 0%nat A sub; op_process 0%nat A pub;
              op_detach 0%nat A] world0 in
  history w
  = [call_Broker_attach A; call_Dealer_attach A;
     call_Broker_processSubscribe A sub; call_Broker_processPublish A pub;
     call_Broker_detach A; call_Dealer_detach A;
     call_Factory_onLastDetach "r1"]
  ∧ _routers (the_factory w) !! "r1" = None
  ∧ (_broker <$> objects w !! 0%nat)
    = Some [call_Broker_attach A; call_Broker_processSubscribe A sub;
            call_Broker_processPublish A pub; call_Broker_detach A].
Proof. vm_compute. repeat split. Qed.

(** * Properties beyond the specification

    What the rest of the code of [router.py] does: the trace filter and
    [send], the role registry, the other outcomes of [authorize], [attach]
    and [detach], and the factory's lookups, realm start-up, role
    installation and stubs. *)

Section RouterExtras.
Context {B D : Type} `{!BrokerClass B, !DealerClass D}.
Implicit Types (e : Router.Env B D) (r : Router B D) (session : Session) (msg : Message).

Lemma include_lets_through (x : string) (l : option (list string)) :
  truthy l && negb (contains x l) = false
  ↔ ∀ l', l = Some l' → l' ≠ [] → x ∈ l'.
Proof.
  destruct l as [[|y l']|]; cbn.
  - split; [|done]. by intros _ ? [= <-] ?.
  - case_bool_decide as Hin; cbn.
    + split; [|done]. by intros _ ? [= <-] _.
    + split; [done|]. intros Hall. destruct Hin. by apply Hall.
  - split; [|done]. by intros _ ? ?.
Qed.

Lemma exclude_lets_through (x : string) (l : option (list string)) :
  truthy l && contains x l = false ↔ ∀ l', l = Some l' → x ∉ l'.
Proof.
  destruct l as [[|y l']|]; cbn.
  - split; [|done]. intros _ ? [= <-]. apply not_elem_of_nil.
  - case_bool_decide as Hin; cbn.
    + split; [done|]. intros Hall. by destruct (Hall _ eq_refl).
    + split; [|done]. by intros _ ? [= <-].
  - split; [|done]. by intros _ ? ?.
Qed.

(** X1. The trace filter lets a message through exactly when tracing is on,
    the session's authrole is in the include list if that list is set and
    not empty, and the authrole is not in the exclude list if one is set.
    The message itself plays no part. *)
Theorem check_trace_iff r session msg :
  Router._check_trace r session msg = true
  ↔ _trace_traffic r = true
    ∧ (∀ l, _trace_traffic_roles_include r = Some l → l ≠ [] →
            _authrole session ∈ l)
    ∧ (∀ l, _trace_traffic_roles_exclude r = Some l →
            _authrole session ∉ l).
Proof.
  unfold Router._check_trace.
  rewrite <- include_lets_through, <- exclude_lets_through.
  destruct (_trace_traffic r); cbn; [|split; [done|by intros [? _]]].
  destruct (truthy (_trace_traffic_roles_include r) && _); cbn;
    [split; [done|by intros (_ & ? & _)]|].
  destruct (truthy (_trace_traffic_roles_exclude r) && _); cbn;
    [split; [done|by intros (_ & _ & ?)]|done].
Qed.

(** X2. [send] never raises and changes neither the router nor the
    factory: it hands the message to the session's transport exactly once,
    after the trace line when the filter lets the message through. *)
Theorem send_hands_to_transport e session msg :
  Router.send session msg e
  = (Ok tt,
     {| Router.self := Router.self e;
        Router.factory := Router.factory e;
        Router.calls :=
          Router.calls e ++ tx_log (Router.self e) session msg
          ++ [call_Transport_send session msg] |}).
Proof.
  destruct e as [r f l]. unfold tx_log. run.
  destruct (Router._check_trace r session msg); run; cbn;
    rewrite <- ?app_assoc; reflexivity.
Qed.

Lemma trusted_not_reserved u : u ≠ "trusted" → u ∉ Router.RESERVED_ROLES.
Proof. intros Hu. unfold Router.RESERVED_ROLES. by rewrite list_elem_of_singleton. Qed.

(** X3. [add_role] of a role whose URI is not reserved returns whether the
    router had a role under that URI (what [has_role] answered before),
    stores the role under its URI so that [has_role] answers [True], and
    leaves every other role as it was. *)
Theorem add_role_installs e role :
  uri role ≠ "trusted" →
  ∃ e',
    Router.add_role role e
    = (Ok (bool_decide (is_Some (_roles (Router.self e) !! uri role))), e')
    ∧ fst (Router.has_role (uri role) e)
      = Ok (bool_decide (is_Some (_roles (Router.self e) !! uri role)))
    ∧ _roles (Router.self e') !! uri role = Some role
    ∧ (∀ u, u ≠ uri role →
            _roles (Router.self e') !! u = _roles (Router.self e) !! u)
    ∧ Router.has_role (uri role) e' = (Ok true, e')
    ∧ e' = Router.set_self (Router.with_roles <[uri role := role]>) e.
Proof.
  intros Hu. eexists. split; [|split; [|split; [|split; [|split]]]]; cycle 5.
  - reflexivity.
  - run. rewrite (bool_decide_eq_false_2 _ (trusted_not_reserved _ Hu)).
    cbn. f_equal. f_equal. apply bool_decide_ext. apply elem_of_dom.
  - run. cbn. do 2 f_equal. apply bool_decide_ext. apply elem_of_dom.
  - cbn. apply lookup_insert_eq.
  - intros u Hne. cbn. by apply lookup_insert_ne.
  - run. cbn. rewrite bool_decide_eq_true_2; [done|].
    apply elem_of_dom. rewrite lookup_insert_eq. eauto.
Qed.

(** X4. [drop_role] of a role whose URI is not reserved returns whether the
    router had a role under that URI, after which [has_role] answers
    [False]; every other role stays, and dropping a role the router does
    not have changes nothing. *)
Theorem drop_role_removes e role :
  uri role ≠ "trusted" →
  ∃ e',
    Router.drop_role role e
    = (Ok (bool_decide (is_Some (_roles (Router.self e) !! uri role))), e')
    ∧ _roles (Router.self e') !! uri role = None
    ∧ (∀ u, u ≠ uri role →
            _roles (Router.self e') !! u = _roles (Router.self e) !! u)
    ∧ Router.has_role (uri role) e' = (Ok false, e')
    ∧ (_roles (Router.self e) !! uri role = None → e' = e).
Proof.
  intros Hu. destruct e as [r f l].
  destruct (_roles r !! uri role) as [old|] eqn:Hold.
  - exists (Router.set_self (Router.with_roles (delete (uri role)))
              {| Router.self := r; Router.factory := f; Router.calls := l |}).
    split; [|split; [|split; [|split]]].
    + run. rewrite (bool_decide_eq_false_2 _ (trusted_not_reserved _ Hu)).
      cbn. rewrite Hold.
      rewrite bool_decide_eq_true_2 by (apply elem_of_dom; eauto).
      rewrite bool_decide_eq_true_2 by eauto. reflexivity.
    + cbn. apply lookup_delete_eq.
    + intros u Hne. cbn. by apply lookup_delete_ne.
    + run. cbn. rewrite bool_decide_eq_false_2; [done|].
      rewrite elem_of_dom, lookup_delete_eq. by intros [? ?].
    + cbn. by rewrite Hold.
  - exists {| Router.self := r; Router.factory := f; Router.calls := l |}.
    split; [|split; [|split; [|split]]]; try done.
    + run. rewrite (bool_decide_eq_false_2 _ (trusted_not_reserved _ Hu)).
      cbn. rewrite Hold.
      rewrite bool_decide_eq_false_2
        by (rewrite elem_of_dom, Hold; by intros [? ?]).
      rewrite bool_decide_eq_false_2 by (by intros [? ?]). reflexivity.
    + run. cbn. rewrite bool_decide_eq_false_2; [done|].
      rewrite elem_of_dom, Hold. by intros [? ?].
Qed.

Lemma with_roles_delete_insert r k v :
  _roles r !! k = None →
  Router.with_roles (delete k) (Router.with_roles <[k := v]> r) = r.
Proof.
  intros Hk. destruct r. cbn in *. unfold Router.with_roles. cbn. f_equal.
  rewrite delete_insert_eq. by apply delete_id.
Qed.

(** X5. Adding a role under a URI the router has no role for and dropping
    it again returns [True] and restores the router exactly. *)
Theorem add_then_drop_role_restores e role :
  uri role ≠ "trusted" →
  _roles (Router.self e) !! uri role = None →
  (_ <- Router.add_role role ;; Router.drop_role role) e = (Ok true, e).
Proof.
  intros Hu Hnew. destruct e as [r f l]. cbn in Hnew. run.
  rewrite (bool_decide_eq_false_2 _ (trusted_not_reserved _ Hu)).
  cbn [Router.self Router.set_self Router.factory Router.calls].
  rewrite bool_decide_eq_true_2
    by (apply elem_of_dom; cbn; rewrite lookup_insert_eq; eauto).
  unfold Router.set_self. cbn [Router.self Router.factory Router.calls].
  by rewrite with_roles_delete_insert.
Qed.

(** X6. When the session's role answers with anything but a bare boolean (a
    dictionary, another value, or a failure), [authorize] returns that
    answer unchanged: no key is added, [disclose] in particular, and the
    role's [authorize] has been called exactly once. *)
Theorem authorize_passes_through e session u action role fut :
  valid_action action →
  _roles (Router.self e) !! _authrole session = Some role →
  authorize role session u action = fut →
  (∀ b, fut ≠ FutureSuccess (AuthValue (PyBool b))) →
  Router.authorize session u action e
  = (Ok fut,
     {| Router.self := Router.self e;
        Router.factory := Router.factory e;
        Router.calls :=
          Router.calls e
          ++ [call_Role_authorize (_authrole session) session u action] |}).
Proof.
  intros Hv Hrole Hans Hraw. destruct e as [r f l]. cbn in Hrole. run.
  rewrite valid_action_assert by done. run. cbn. rewrite Hrole. run. cbn.
  rewrite Hans. do 2 f_equal. unfold addCallback.
  destruct fut as [[[| b | |]|d]|x]; try done. by destruct (Hraw b).
Qed.

(** X7. [authorize] with an action that is none of [call], [register],
    [publish] and [subscribe] fails its assertion before any role is looked
    up: nothing is called and nothing changes. *)
Theorem authorize_rejects_unknown_action e session u action :
  ¬ valid_action action →
  Router.authorize session u action e = (Raise AssertionError, e).
Proof.
  intros Hv. run. rewrite bool_decide_eq_false_2; [done|].
  intros Hin. apply Hv. unfold valid_action.
  repeat (apply elem_of_cons in Hin as [->|Hin]; [tauto|]).
  by apply elem_of_nil in Hin.
Qed.

(** X8. [authorize] never changes the router or the factory, whatever its
    arguments and outcome, and calls at most one role's [authorize]: the one
    of the session's authrole, when the router has that role. *)
Theorem authorize_reads_only e session u action :
  Router.self (snd (Router.authorize session u action e)) = Router.self e
  ∧ Router.factory (snd (Router.authorize session u action e))
    = Router.factory e
  ∧ (Router.calls (snd (Router.authorize session u action e)) = Router.calls e
     ∨ (is_Some (_roles (Router.self e) !! _authrole session)
        ∧ Router.calls (snd (Router.authorize session u action e))
          = (Router.calls e
             ++ [call_Role_authorize (_authrole session) session u action])%list)).
Proof.
  destruct e as [r f l]. run. case_bool_decide; cbn; [|auto]. run. cbn.
  destruct (_roles r !! _authrole session) as [role|] eqn:Hrole; cbn; eauto 10.
Qed.

(** X9. [attach] of a client session whose identifier is free registers the
    session under its identifier, calls [attach] on the Broker and then on
    the Dealer, adds one to the counter and returns the role features of the
    two engines as they are after the call; roles and factory are
    untouched. *)
Theorem attach_registers_client e session :
  _is_client_session session = true →
  _session_id_to_session (Router.self e) !! _session_id session = None →
  ∃ e',
    Router.attach session e
    = (Ok {[ "broker" := Broker_role_features (_broker (Router.self e'));
             "dealer" := Dealer_role_features (_dealer (Router.self e')) ]},
       e')
    ∧ _session_id_to_session (Router.self e')
      = <[_session_id session := session]>
          (_session_id_to_session (Router.self e))
    ∧ _attached (Router.self e') = _attached (Router.self e) + 1
    ∧ _broker (Router.self e')
      = Broker_attach session (_broker (Router.self e))
    ∧ _dealer (Router.self e')
      = Dealer_attach session (_dealer (Router.self e))
    ∧ Router.calls e'
      = (Router.calls e
         ++ [call_Broker_attach session; call_Dealer_attach session])%list
    ∧ _roles (Router.self e') = _roles (Router.self e)
    ∧ Router.factory e' = Router.factory e.
Proof.
  intros Hc Hout. destruct e as [r f l]. cbn in Hout. eexists. split.
  - run. cbn. rewrite Hout, Hc. run. f_equal.
    cbn. f_equal.
  - cbn. rewrite <- app_assoc. done.
Qed.

Lemma detach_self e session :
  is_Some (_session_id_to_session (Router.self e) !! _session_id session)
  ∨ _is_client_session session = false →
  Router.self (snd (Router.detach session e))
  = detached session (Router.self e).
Proof.
  intros Hp. rewrite detach_passes by done.
  by repeat case_bool_decide.
Qed.

Lemma detach_refused e session :
  _session_id_to_session (Router.self e) !! _session_id session = None →
  _is_client_session session = true →
  Router.self (snd (Router.detach session e))
  = Router.with_dealer (Dealer_detach session)
      (Router.with_broker (Broker_detach session) (Router.self e)).
Proof.
  intros Hout Hc. destruct e as [r f l]. cbn in Hout. run. cbn.
  by rewrite Hout, Hc.
Qed.

(** X10. On a router whose counter is not zero, [attach] followed by
    [detach] of a session whose identifier is free returns with the
    registry, the counter, the roles and the factory as before: no
    [onLastDetach] call is made, and the engines have seen the attach and
    the detach in that order. *)
Theorem attach_then_detach_restores e session :
  _attached (Router.self e) ≠ 0 →
  _session_id_to_session (Router.self e) !! _session_id session = None →
  ∃ e',
    (_ <- Router.attach session ;; Router.detach session) e = (Ok tt, e')
    ∧ _session_id_to_session (Router.self e')
      = _session_id_to_session (Router.self e)
    ∧ _attached (Router.self e') = _attached (Router.self e)
    ∧ _roles (Router.self e') = _roles (Router.self e)
    ∧ Router.factory e' = Router.factory e
    ∧ Router.calls e'
      = (Router.calls e
         ++ [call_Broker_attach session; call_Dealer_attach session;
             call_Broker_detach session; call_Dealer_detach session])%list.
Proof.
  intros Hn Hout. unfold bind at 1.
  destruct (attach_unregistered e session Hout) as [feats ->].
  rewrite detach_passes; cbn [Router.self Router.factory Router.calls].
  - rewrite bool_decide_eq_false_2
      by (destruct (_is_client_session session); cbn; lia).
    eexists. split; [reflexivity|]. cbn.
    split; [|split; [|split; [|split]]].
    + destruct (_is_client_session session); cbn.
      * rewrite delete_insert_eq. by apply delete_id.
      * by apply delete_id.
    + destruct (_is_client_session session); cbn; lia.
    + by destruct (_is_client_session session).
    + done.
    + by rewrite <- app_assoc.
  - destruct (_is_client_session session); [left|by right].
    cbn. rewrite lookup_insert_eq. eauto.
Qed.

(** X11. [detach] finds the session by its identifier alone: when the
    identifier is registered (for whatever session object) the entry is
    deleted, the counter goes down by one, and the identifier is free again,
    so that the session can attach anew. *)
Theorem detach_frees_identifier e session s0 :
  _session_id_to_session (Router.self e) !! _session_id session = Some s0 →
  _session_id_to_session (Router.self (snd (Router.detach session e)))
  = delete (_session_id session) (_session_id_to_session (Router.self e))
  ∧ _attached (Router.self (snd (Router.detach session e)))
    = _attached (Router.self e) - 1
  ∧ is_ok (fst (Router.attach session (snd (Router.detach session e)))) = true.
Proof.
  intros Hin. assert (Hself := detach_self e session (or_introl (ex_intro _ s0 Hin))).
  split; [by rewrite Hself|]. split; [by rewrite Hself|].
  destruct (attach_unregistered (snd (Router.detach session e)) session)
    as [feats ->]; [|done].
  rewrite Hself. cbn. apply lookup_delete_eq.
Qed.

(** X12. On a router whose realm its factory no longer has, a [detach] that
    brings the counter from one to zero raises the [AssertionError] of
    [onLastDetach] after it has detached the session from both engines,
    deleted its entry and decremented the counter; the factory is
    unchanged. *)
Theorem detach_after_teardown_raises e session :
  is_Some (_session_id_to_session (Router.self e) !! _session_id session)
  ∨ _is_client_session session = false →
  _attached (Router.self e) = 1 →
  ¬ live e →
  Router.detach session e
  = (Raise AssertionError,
     {| Router.self := detached session (Router.self e);
        Router.factory := Router.factory e;
        Router.calls :=
          Router.calls e ++ detach_calls session
          ++ [call_Factory_onLastDetach (realm (Router.self e))] |}).
Proof.
  intros Hp H1 Hlive. rewrite detach_passes by done.
  rewrite (bool_decide_eq_true_2 _ H1).
  unfold live in Hlive. by rewrite (bool_decide_eq_false_2 _ Hlive).
Qed.

Lemma attach_keeps_registry_wf e session :
  registry_wf (Router.self e) →
  registry_wf (Router.self (snd (Router.attach session e))).
Proof.
  intros Hwf.
  destruct (_session_id_to_session (Router.self e) !! _session_id session)
    as [s0|] eqn:Hreg.
  - destruct e as [r f l]. cbn in *. run. cbn. by rewrite Hreg.
  - destruct (attach_unregistered e session Hreg) as [feats ->]. cbn.
    destruct (_is_client_session session) eqn:Hc; [|done].
    intros id s. cbn. destruct (decide (_session_id session = id)) as [<-|Hne].
    + rewrite lookup_insert_eq. by intros [= <-].
    + rewrite lookup_insert_ne by done. apply Hwf.
Qed.

Lemma detach_keeps_registry_wf e session :
  registry_wf (Router.self e) →
  registry_wf (Router.self (snd (Router.detach session e))).
Proof.
  intros Hwf.
  destruct (_session_id_to_session (Router.self e) !! _session_id session)
    as [s0|] eqn:Hreg.
  - rewrite detach_self by eauto. intros id s. cbn.
    intros Hs. apply lookup_delete_Some in Hs as [_ Hs]. by apply Hwf.
  - destruct (_is_client_session session) eqn:Hc.
    + by rewrite detach_refused.
    + rewrite detach_self by eauto. intros id s. cbn.
      intros Hs. apply lookup_delete_Some in Hs as [_ Hs]. by apply Hwf.
Qed.

Lemma run_session_op_counts op e :
  _is_client_session (session_of op) = true →
  counts_registry (Router.self e) →
  counts_registry (Router.self (snd (run_session_op op e))).
Proof.
  unfold counts_registry. intros Hc Hcnt. destruct op as [s|s]; cbn [run_session_op session_of] in *.
  - rewrite snd_discard.
    destruct (_session_id_to_session (Router.self e) !! _session_id s)
      as [s0|] eqn:Hreg.
    + destruct e as [r f l]. cbn in *. run. cbn. by rewrite Hreg.
    + destruct (attach_unregistered e s Hreg) as [feats ->]. cbn.
      rewrite Hc. cbn. rewrite map_size_insert_None by done. lia.
  - destruct (_session_id_to_session (Router.self e) !! _session_id s)
      as [s0|] eqn:Hreg.
    + rewrite detach_self by eauto. cbn.
      pose proof (map_size_delete_Some (_session_id s)
                    (_session_id_to_session (Router.self e))
                    (ex_intro _ s0 Hreg)).
      assert (size (_session_id_to_session (Router.self e)) ≠ 0%nat).
      { intros H0. apply map_size_empty_inv in H0. rewrite H0 in Hreg.
        by rewrite lookup_empty in Hreg. }
      lia.
    + by rewrite detach_refused.
Qed.

(** X13. Under any sequence of [attach] and [detach] calls with client
    sessions, failed calls included, the counter of attached sessions stays
    equal to the number of registered sessions when it was so at the
    start. *)
Theorem client_traffic_counter_is_registry_size ops : ∀ e,
  Forall (λ op, _is_client_session (session_of op) = true) ops →
  counts_registry (Router.self e) →
  counts_registry (Router.self (run_session_ops ops e)).
Proof.
  induction ops as [|op ops IH]; intros e Hall Hcnt; [done|].
  apply Forall_cons in Hall as [Hc Hall]. cbn.
  by apply IH, run_session_op_counts.
Qed.
End RouterExtras.

Section WorldExtras.
Context {B D : Type} `{!BrokerClass B, !DealerClass D}.
Variable HAS_LMDB : bool.
Implicit Types (w : World B D) (e : Router.Env B D) (o : oid).

Ltac same_registry :=
  intros [? ? ?]; run; cbn;
  repeat (first [case_match | case_bool_decide]; simplify_eq/=); cbn; auto.

Lemma on_router_all {A} (P : Router B D → Prop) o (m : M (Router.Env B D) A) w :
  (∀ e, P (Router.self e) → P (Router.self (snd (m e)))) →
  (∀ o' r, objects w !! o' = Some r → P r) →
  ∀ o' r, objects (snd (RouterFactory.on_router o m w)) !! o' = Some r → P r.
Proof.
  intros Hm Hw o' r'. destruct (objects w !! o) as [r0|] eqn:Ho.
  - rewrite (on_router_some _ _ _ _ Ho). cbn.
    destruct (decide (o = o')) as [<-|Hne].
    + rewrite list_lookup_insert_eq by by eapply lookup_lt_Some.
      intros [= <-]. apply (Hm (env_of w r0)). by eapply Hw.
    + rewrite list_lookup_insert_ne by done. apply Hw.
  - rewrite (on_router_none _ _ _ Ho). apply Hw.
Qed.

Lemma run_op_registry_wf op w :
  all_registry_wf w → all_registry_wf (snd (run_op HAS_LMDB op w)).
Proof.
  intros Hw.
  assert (Hsame : ∀ {A} o (m : M (Router.Env B D) A),
    (∀ e, _session_id_to_session (Router.self (snd (m e)))
          = _session_id_to_session (Router.self e)) →
    all_registry_wf (snd (RouterFactory.on_router o m w))).
  { intros A o m Hm. unfold all_registry_wf.
    apply (on_router_all registry_wf o m w); [|exact Hw].
    intros e He id s. rewrite Hm. apply He. }
  destruct op; cbn [run_op]; rewrite ?snd_discard.
  - unfold all_registry_wf. apply (on_router_all registry_wf);
      [intros e; apply attach_keeps_registry_wf|exact Hw].
  - unfold all_registry_wf. apply (on_router_all registry_wf);
      [intros e; apply detach_keeps_registry_wf|exact Hw].
  - apply Hsame. same_registry.
  - apply Hsame. same_registry.
  - apply Hsame. same_registry.
  - apply Hsame. same_registry.
  - apply Hsame. same_registry.
  - apply Hsame. same_registry.
  - apply Hsame. same_registry.
  - by rewrite get_world.
  - done.
  - done.
  - destruct (start_realm_cases HAS_LMDB realm_ w)
      as [[x ->]|(r & -> & _ & _ & _ & Hreg & _)]; [done|].
    intros o r' Ho. cbn in Ho.
    apply lookup_app_Some in Ho as [Ho|[_ Ho]]; [by eapply Hw|].
    apply list_lookup_singleton_Some in Ho as [_ <-].
    intros id s. by rewrite Hreg, lookup_empty.
  - done.
  - destruct (factory_add_role_world realm_ c w) as [->|(o & role & ->)];
      [done|]. apply Hsame. same_registry.
  - done.
  - done.
  - done.
Qed.

(** X14. No operation of the core puts anything but a client session into a
    session registry, and always under the session's own identifier: the
    property holds for every router of the world after any sequence of
    operations when it held before. *)
Theorem registered_sessions_are_clients ops : ∀ w,
  all_registry_wf w → all_registry_wf (run_ops HAS_LMDB ops w).
Proof.
  induction ops as [|op ops IH]; intros w Hw; [done|].
  cbn. by apply IH, run_op_registry_wf.
Qed.

(** X15. [start_realm] of an unregistered name with a store section that can
    be set up and a payload format that is absent or one of the three
    returns a new router object and registers it under the name, leaving
    the other realms and routers as they were.  The router has the factory's
    options, the LMDB or the memory store the configuration asks for (none
    without a store section), and the configured payload format, [opaque]
    when there is none. *)
Theorem start_realm_creates rr w :
  cfg_name (config rr) ∉ dom (_routers (the_factory w)) →
  store_available HAS_LMDB (config rr) →
  (∀ f, cfg_mqtt_payload_format (config rr) = Some f →
        f ∈ ["opaque"; "json"; "cbor"]) →
  ∃ r,
    RouterFactory.start_realm HAS_LMDB rr w
    = (Ok (length (objects w)),
       {| the_factory :=
            set_routers <[cfg_name (config rr) := length (objects w)]>
              (the_factory w);
          objects := objects w ++ [r];
          history := history w |})
    ∧ realm r = cfg_name (config rr)
    ∧ _realm r = rr
    ∧ _options r = _factory_options (the_factory w)
    ∧ _store r
      = match cfg_store (config rr) with
        | None => None
        | Some sc =>
            Some (if bool_decide (store_type sc = "lmdb")
                  then LmdbRealmStore sc else MemoryRealmStore sc)
        end
    ∧ _mqtt_payload_format r
      = Some (default "opaque" (cfg_mqtt_payload_format (config rr)))
    ∧ _attached r = 0
    ∧ _session_id_to_session r = ∅.
Proof.
  intros Hnew Hst Hfmt.
  unfold RouterFactory.start_realm, RouterFactory.new_router,
    RouterFactory.set_router, RouterFactory.set_the_factory. run.
  rewrite (bool_decide_eq_false_2 _ Hnew). cbn.
  unfold store_available in Hst.
  destruct (cfg_store (config rr)) as [sc|]; cbn.
  - destruct Hst as [[Hty ->]|Hty].
    + rewrite (bool_decide_eq_true_2 _ Hty). cbn.
      destruct (cfg_mqtt_payload_format (config rr)) as [fmt|]; cbn.
      * rewrite (bool_decide_eq_true_2 _ (Hfmt _ eq_refl)). cbn.
        eexists. split; [reflexivity|]. repeat split.
      * eexists. split; [reflexivity|]. repeat split.
    + rewrite bool_decide_eq_false_2 by (rewrite Hty; done).
      rewrite (bool_decide_eq_true_2 _ Hty). cbn.
      destruct (cfg_mqtt_payload_format (config rr)) as [fmt|]; cbn.
      * rewrite (bool_decide_eq_true_2 _ (Hfmt _ eq_refl)). cbn.
        eexists. split; [reflexivity|]. repeat split.
      * eexists. split; [reflexivity|]. repeat split.
  - destruct (cfg_mqtt_payload_format (config rr)) as [fmt|]; cbn.
    + rewrite (bool_decide_eq_true_2 _ (Hfmt _ eq_refl)). cbn.
      eexists. split; [reflexivity|]. repeat split.
    + eexists. split; [reflexivity|]. repeat split.
Qed.

(** X16. Once [start_realm] has started a realm, starting a realm of the
    same name again fails its assertion and changes nothing: the first
    router stays registered. *)
Theorem start_realm_twice_refused rr rr' w o w1 :
  RouterFactory.start_realm HAS_LMDB rr w = (Ok o, w1) →
  cfg_name (config rr') = cfg_name (config rr) →
  RouterFactory.start_realm HAS_LMDB rr' w1 = (Raise AssertionError, w1)
  ∧ _routers (the_factory w1) !! cfg_name (config rr) = Some o.
Proof.
  intros Hs Hname.
  destruct (start_realm_registers HAS_LMDB rr w o w1 Hs) as [Hreg _].
  split; [|done].
  unfold RouterFactory.start_realm. run. rewrite Hname.
  rewrite bool_decide_eq_true_2; [done|]. apply elem_of_dom. eauto.
Qed.

(** X17. [start_realm] with a store section whose type is neither [lmdb] nor
    [memory] raises [Exception('logic error')], whatever the payload format
    and the deployment, and changes nothing. *)
Theorem start_realm_unknown_store_type rr sc w :
  cfg_name (config rr) ∉ dom (_routers (the_factory w)) →
  cfg_store (config rr) = Some sc →
  store_type sc ≠ "lmdb" →
  store_type sc ≠ "memory" →
  RouterFactory.start_realm HAS_LMDB rr w
  = (Raise (Exception "logic error"), w).
Proof.
  intros Hnew Hsc Hl Hm. unfold RouterFactory.start_realm. run.
  rewrite (bool_decide_eq_false_2 _ Hnew). cbn. rewrite Hsc.
  rewrite (bool_decide_eq_false_2 _ Hl), (bool_decide_eq_false_2 _ Hm).
  reflexivity.
Qed.

Lemma getitem_lookup realm_ w :
  RouterFactory.__getitem__ realm_ w
  = (match _routers (the_factory w) !! realm_ with
     | Some o => Ok o
     | None => Raise (KeyError realm_)
     end, w).
Proof.
  unfold RouterFactory.__getitem__, RouterFactory.lift, getitem. run.
  by destruct (_routers (the_factory w) !! realm_).
Qed.

Lemma contains_lookup realm_ w :
  RouterFactory.__contains__ realm_ w
  = (Ok (bool_decide (is_Some (_routers (the_factory w) !! realm_))), w).
Proof.
  unfold RouterFactory.__contains__. run. cbn. do 2 f_equal.
  apply bool_decide_ext, elem_of_dom.
Qed.

Lemma get_of_registered realm_ w o :
  _routers (the_factory w) !! realm_ = Some o →
  RouterFactory.get realm_ w = (Ok o, w).
Proof.
  intros Ho. destruct (_auto_create_realms (the_factory w)) eqn:Hflag.
  - by apply get_auto_create_registered.
  - rewrite get_without_auto_create by done. by rewrite Ho.
Qed.

(** X18. The three lookups of the factory agree and change nothing:
    [factory[realm]] returns the registered router and raises [KeyError]
    when there is none, [realm in factory] tells whether it returns, and
    [get] equals it when auto-creation is off, and whenever the realm is
    registered. *)
Theorem factory_lookups_agree realm_ w :
  RouterFactory.__getitem__ realm_ w
  = (match _routers (the_factory w) !! realm_ with
     | Some o => Ok o
     | None => Raise (KeyError realm_)
     end, w)
  ∧ RouterFactory.__contains__ realm_ w
    = (Ok (is_ok (fst (RouterFactory.__getitem__ realm_ w))), w)
  ∧ (_auto_create_realms (the_factory w) = false
     ∨ is_Some (_routers (the_factory w) !! realm_) →
     RouterFactory.get realm_ w = RouterFactory.__getitem__ realm_ w).
Proof.
  rewrite getitem_lookup, contains_lookup. split; [done|]. split.
  - by destruct (_routers (the_factory w) !! realm_).
  - intros [Hoff|[o Ho]].
    + by apply get_without_auto_create.
    + rewrite Ho. by apply get_of_registered.
Qed.

(** X19. A realm that [start_realm] has started is found: [get],
    [factory[name]] return the router that [start_realm] returned, an
    object of that realm name, and [name in factory] is [True]. *)
Theorem start_realm_then_get rr w o w1 :
  RouterFactory.start_realm HAS_LMDB rr w = (Ok o, w1) →
  RouterFactory.get (cfg_name (config rr)) w1 = (Ok o, w1)
  ∧ RouterFactory.__getitem__ (cfg_name (config rr)) w1 = (Ok o, w1)
  ∧ RouterFactory.__contains__ (cfg_name (config rr)) w1 = (Ok true, w1)
  ∧ ∃ r, objects w1 !! o = Some r ∧ realm r = cfg_name (config rr).
Proof.
  intros Hs.
  destruct (start_realm_registers HAS_LMDB rr w o w1 Hs)
    as (Hreg & r & Hr & Hrealm & _).
  split; [|split; [|split]].
  - by apply get_of_registered.
  - by rewrite getitem_lookup, Hreg.
  - by rewrite contains_lookup, Hreg.
  - eauto.
Qed.

(** The role that [RouterFactory.add_role] builds from a configuration. *)
Lemma factory_add_role_registered realm_ c w o :
  _routers (the_factory w) !! realm_ = Some o →
  RouterFactory.add_role realm_ c w
  = (_ <- RouterFactory.on_router o
            (Router.add_role
               match role_permissions c with
               | Some permissions =>
                   RouterRoleStaticAuth (role_name c) permissions
               | None =>
                   match role_authorizer c with
                   | Some authorizer =>
                       RouterRoleDynamicAuth (role_name c) authorizer
                   | None =>
                       RouterRole (role_name c)
                         (default false (role_allow_by_default c))
                   end
               end) ;; ret tt) w.
Proof.
  intros Ho.
  cbv [RouterFactory.add_role RouterFactory.lift getitem bind ret assert
       get_state raise].
  rewrite bool_decide_eq_true_2 by (apply elem_of_dom; eauto).
  by rewrite Ho.
Qed.

Lemma config_role_uri c :
  uri match role_permissions c with
      | Some permissions => RouterRoleStaticAuth (role_name c) permissions
      | None =>
          match role_authorizer c with
          | Some authorizer => RouterRoleDynamicAuth (role_name c) authorizer
          | None =>
              RouterRole (role_name c)
                (default false (role_allow_by_default c))
          end
      end = role_name c.
Proof. by destruct (role_permissions c), (role_authorizer c). Qed.

Lemma factory_add_role_result realm_ c w o r :
  _routers (the_factory w) !! realm_ = Some o →
  objects w !! o = Some r →
  role_name c ≠ "trusted" →
  RouterFactory.add_role realm_ c w
  = (Ok tt,
     {| the_factory := the_factory w;
        objects :=
          <[o := Router.with_roles
                   <[role_name c :=
                       match role_permissions c with
                       | Some permissions =>
                           RouterRoleStaticAuth (role_name c) permissions
                       | None =>
                           match role_authorizer c with
                           | Some authorizer =>
                               RouterRoleDynamicAuth (role_name c) authorizer
                           | None =>
                               RouterRole (role_name c)
                                 (default false (role_allow_by_default c))
                           end
                       end]> r]> (objects w);
        history := history w |}).
Proof.
  intros Ho Hr Hname. rewrite (factory_add_role_registered _ _ _ _ Ho).
  unfold bind at 1. rewrite (on_router_some _ _ _ _ Hr).
  unfold env_of. run. rewrite config_role_uri.
  rewrite bool_decide_eq_false_2
    by (unfold Router.RESERVED_ROLES; by rewrite list_elem_of_singleton).
  reflexivity.
Qed.

(** X20. [RouterFactory.add_role] on a registered realm with a role name
    other than [trusted] builds a static role when the configuration has
    [permissions] (also when it has an [authorizer] too), a dynamic role
    when it has only an [authorizer], and the default role with
    [allow-by-default] ([False] when absent) otherwise, and installs it
    under its name on the router of that realm; the other routers, the
    realm registry and the log are untouched. *)
Theorem factory_add_role_installs realm_ c w o r :
  _routers (the_factory w) !! realm_ = Some o →
  objects w !! o = Some r →
  role_name c ≠ "trusted" →
  ∃ role w',
    RouterFactory.add_role realm_ c w = (Ok tt, w')
    ∧ uri role = role_name c
    ∧ (∀ p, role_permissions c = Some p →
            role = RouterRoleStaticAuth (role_name c) p)
    ∧ (∀ a, role_permissions c = None → role_authorizer c = Some a →
            role = RouterRoleDynamicAuth (role_name c) a)
    ∧ (role_permissions c = None → role_authorizer c = None →
       role = RouterRole (role_name c)
                (default false (role_allow_by_default c)))
    ∧ objects w' = <[o := Router.with_roles <[role_name c := role]> r]>
                     (objects w)
    ∧ (∀ o', o' ≠ o → objects w' !! o' = objects w !! o')
    ∧ the_factory w' = the_factory w
    ∧ history w' = history w.
Proof.
  intros Ho Hr Hname. eexists _, _.
  split; [by apply factory_add_role_result|]. cbn.
  split; [apply config_role_uri|].
  split; [by intros p ->|]. split; [by intros a -> ->|].
  split; [by intros -> ->|]. split; [done|]. split; [|done].
  intros o' Hne. by apply list_lookup_insert_ne.
Qed.

(** X21. [RouterFactory.add_role] fails its assertion for a realm that is not
    registered, and raises the reserved-role exception of [Router.add_role]
    for the role name [trusted]; in both cases nothing changes. *)
Theorem factory_add_role_refused realm_ c w :
  (realm_ ∉ dom (_routers (the_factory w)) →
   RouterFactory.add_role realm_ c w = (Raise AssertionError, w))
  ∧ (∀ o r,
       _routers (the_factory w) !! realm_ = Some o →
       objects w !! o = Some r →
       role_name c = "trusted" →
       RouterFactory.add_role realm_ c w
       = (Raise (ReservedRole "add" "trusted"), w)).
Proof.
  split.
  - intros Hout.
    cbv [RouterFactory.add_role RouterFactory.lift getitem bind ret assert
         get_state raise].
    by rewrite (bool_decide_eq_false_2 _ Hout).
  - intros o r Ho Hr Hname. rewrite (factory_add_role_registered _ _ _ _ Ho).
    unfold bind at 1. rewrite (on_router_some _ _ _ _ Hr).
    unfold env_of. run. rewrite config_role_uri, Hname.
    rewrite bool_decide_eq_true_2
      by (unfold Router.RESERVED_ROLES; by rewrite list_elem_of_singleton).
    cbn. destruct w as [f objs h]. cbn in *. f_equal. f_equal.
    by apply list_insert_id.
Qed.

(** X22. [RouterFactory.drop_role] and [stop_realm] only log: after the
    factory has added a role to a realm, dropping that role through the
    factory and stopping the realm return without effect, the role is still
    installed and the realm still registered. *)
Theorem factory_drop_role_and_stop_realm_are_stubs realm_ c w o r :
  _routers (the_factory w) !! realm_ = Some o →
  objects w !! o = Some r →
  role_name c ≠ "trusted" →
  ∃ w1 r1,
    RouterFactory.add_role realm_ c w = (Ok tt, w1)
    ∧ RouterFactory.drop_role realm_ (role_name c) w1 = (Ok tt, w1)
    ∧ RouterFactory.stop_realm realm_ w1 = (Ok tt, w1)
    ∧ objects w1 !! o = Some r1
    ∧ is_Some (_roles r1 !! role_name c)
    ∧ _routers (the_factory w1) !! realm_ = Some o.
Proof.
  intros Ho Hr Hname. eexists _, _.
  split; [by apply factory_add_role_result|].
  split; [done|]. split; [done|]. cbn.
  split; [apply list_lookup_insert_eq; by eapply lookup_lt_Some|].
  split; [|done]. cbn. rewrite lookup_insert_eq. eauto.
Qed.

(** X23. [onLastDetach] deletes the realm of the router from the registry
    when it is registered, and fails its assertion without any change when
    it is not (the [KeyError] of the deletion never surfaces); the other
    realms stay registered and no router object is touched. *)
Theorem onLastDetach_removes_only_that_realm (router : Router B D) w :
  RouterFactory.onLastDetach router w
  = (if bool_decide (realm router ∈ dom (_routers (the_factory w)))
     then (Ok tt,
           {| the_factory :=
                set_routers (delete (realm router)) (the_factory w);
              objects := objects w;
              history := history w |})
     else (Raise AssertionError, w))
  ∧ (∀ u, u ≠ realm router →
       _routers (the_factory (snd (RouterFactory.onLastDetach router w))) !! u
       = _routers (the_factory w) !! u)
  ∧ _routers (the_factory (snd (RouterFactory.onLastDetach router w)))
      !! realm router = None.
Proof.
  assert (Heq : RouterFactory.onLastDetach router w
    = (if bool_decide (realm router ∈ dom (_routers (the_factory w)))
       then (Ok tt,
             {| the_factory :=
                  set_routers (delete (realm router)) (the_factory w);
                objects := objects w;
                history := history w |})
       else (Raise AssertionError, w))).
  { unfold RouterFactory.onLastDetach, RouterFactory.set_the_factory. run.
    case_bool_decide as Hin; cbn.
    - apply elem_of_dom in Hin as [o Ho]. rewrite Ho. cbn.
      destruct w as [[rs fo ac] objs h]. reflexivity.
    - destruct w as [[rs fo ac] objs h]. reflexivity. }
  split; [exact Heq|]. rewrite Heq.
  case_bool_decide as Hin; cbn.
  - split; [intros u Hne; by apply lookup_delete_ne|apply lookup_delete_eq].
  - split; [done|]. by apply not_elem_of_dom.
Qed.

(** X24. [start_realm] is the only operation that registers a realm: when a
    name is registered after an operation and was not before, the operation
    is a [start_realm] of a realm of that name which returned, and the name
    is bound to the one router object the operation created. *)
Theorem sole_creation_path op w u :
  u ∉ dom (_routers (the_factory w)) →
  u ∈ dom (_routers (the_factory (snd (run_op HAS_LMDB op w)))) →
  ∃ rr,
    op = op_factory_start_realm rr
    ∧ cfg_name (config rr) = u
    ∧ fst (run_op HAS_LMDB op w) = Ok tt
    ∧ _routers (the_factory (snd (run_op HAS_LMDB op w))) !! u
      = Some (length (objects w))
    ∧ length (objects (snd (run_op HAS_LMDB op w))) = S (length (objects w)).
Proof.
  intros Hout Hin.
  assert (Hkeep : ∀ {A} o (m : M (Router.Env B D) A),
    keeps_factory m →
    u ∈ dom (_routers (the_factory (snd (RouterFactory.on_router o m w)))) →
    False).
  { intros A o m Hm.
    destruct (on_router_keeps_factory o m w Hm) as [-> _]. done. }
  destruct op; cbn [run_op] in *; rewrite ?snd_discard in *.
  - destruct (Hkeep _ _ _ (attach_keeps_factory s) Hin).
  - exfalso. destruct (objects w !! o) as [r|] eqn:Ho.
    + rewrite (on_router_some _ _ _ _ Ho) in Hin.
      cbn [snd the_factory] in Hin.
      pose proof (detach_factory s (env_of w r)) as Hd.
      destruct (Router.detach s (env_of w r)) as [res e'].
      cbn [snd fst env_of Router.factory] in *. destruct Hd as [[Hf _]|(_ & _ & [[_ Hf]|[_ Hf]])].
      * by rewrite Hf in Hin.
      * rewrite Hf, dom_delete_L in Hin.
        apply elem_of_difference in Hin as [? _]. done.
      * by rewrite Hf in Hin.
    + by rewrite (on_router_none _ _ _ Ho) in Hin.
  - destruct (Hkeep _ _ _ (send_keeps_factory s m) Hin).
  - destruct (Hkeep _ _ _ (process_keeps_factory s m) Hin).
  - destruct (Hkeep _ _ _ (has_role_keeps_factory u0) Hin).
  - destruct (Hkeep _ _ _ (add_role_keeps_factory r) Hin).
  - destruct (Hkeep _ _ _ (drop_role_keeps_factory r) Hin).
  - destruct (Hkeep _ _ _ (authorize_keeps_factory s u0 action) Hin).
  - destruct (Hkeep _ _ _ (validate_keeps_factory payload_type u0) Hin).
  - by rewrite get_world in Hin.
  - done.
  - done.
  - exists realm_. split; [done|].
    destruct (start_realm_cases HAS_LMDB realm_ w)
      as [[x Hx]|(r & Hr & _)].
    + rewrite Hx in Hin. done.
    + rewrite Hr in Hin. cbn in Hin. rewrite dom_insert_L in Hin.
      apply elem_of_union in Hin as [Hin|Hin]; [|done].
      apply elem_of_singleton in Hin as ->.
      split; [done|]. unfold discard, bind, ret. rewrite Hr. cbn.
      split; [done|]. split; [apply lookup_insert_eq|].
      rewrite length_app. cbn. lia.
  - done.
  - exfalso.
    destruct (factory_add_role_world realm_ c w) as [Hw|(o & role & Hw)];
      rewrite Hw in Hin; [done|].
    destruct (Hkeep _ _ _ (add_role_keeps_factory role) Hin).
  - done.
  - done.
  - done.
Qed.
End WorldExtras.

(** ** The further statements on the sample world *)

Lemma check_trace_iff_witness :
  Router._check_trace router1 client_session
    {| msg_class := Publish; request_type := 0; msg_fields := [] |} ≠ true.
Proof.
  intros Htrace.
  apply (check_trace_iff router1 client_session) in Htrace as [Hon _].
  vm_compute in Hon. discriminate.
Defined.

Lemma add_role_installs_witness :
  ∃ e', Router.add_role dict_role env1 = (Ok false, e')
        ∧ Router.has_role "frontend" e' = (Ok true, e').
Proof.
  destruct (add_role_installs env1 dict_role) as (e' & Hadd & _ & _ & _ & Hhas & _).
  - discriminate.
  - exists e'. split; [|exact Hhas]. rewrite Hadd. reflexivity.
Defined.

Lemma drop_role_removes_witness :
  ∃ e', Router.drop_role dict_role env_frontend = (Ok true, e')
        ∧ Router.has_role "frontend" e' = (Ok false, e').
Proof.
  destruct (drop_role_removes env_frontend dict_role) as (e' & Hdrop & _ & _ & Hhas & _).
  - discriminate.
  - exists e'. split; [|exact Hhas]. rewrite Hdrop. reflexivity.
Defined.

Lemma add_then_drop_role_restores_witness :
  (_ <- Router.add_role dict_role ;; Router.drop_role dict_role) env1
  = (Ok true, env1).
Proof.
  apply (add_then_drop_role_restores env1 dict_role).
  - discriminate.
  - vm_compute. reflexivity.
Defined.

Lemma authorize_passes_through_witness :
  fst (Router.authorize client_session "com.example.topic" "publish"
         env_frontend)
  = Ok (FutureSuccess (AuthDict {[ "allow" := PyBool true;
                                   "cache" := PyBool true ]})).
Proof.
  rewrite (authorize_passes_through env_frontend client_session
             "com.example.topic" "publish" dict_role
             (FutureSuccess (AuthDict {[ "allow" := PyBool true;
                                         "cache" := PyBool true ]}))).
  - reflexivity.
  - unfold valid_action. auto.
  - vm_compute. reflexivity.
  - reflexivity.
  - intros b. discriminate.
Defined.

Lemma authorize_rejects_unknown_action_witness :
  Router.authorize internal_session "com.example.topic" "delete" env1
  = (Raise AssertionError, env1).
Proof.
  apply (authorize_rejects_unknown_action env1 internal_session).
  unfold valid_action. intros [H|[H|[H|H]]]; discriminate.
Defined.

Lemma attach_registers_client_witness :
  ∃ e', is_ok (fst (Router.attach client_session env1)) = true
        ∧ snd (Router.attach client_session env1) = e'
        ∧ _session_id_to_session (Router.self e') !! 7001
          = Some client_session
        ∧ _attached (Router.self e') = 1.
Proof.
  destruct (attach_registers_client env1 client_session)
    as (e' & Hat & Hreg & Hcnt & _).
  - reflexivity.
  - vm_compute. reflexivity.
  - exists e'. rewrite Hat. split; [reflexivity|]. split; [reflexivity|].
    split; [rewrite Hreg; apply lookup_insert_eq|]. rewrite Hcnt. reflexivity.
Defined.

Lemma attach_then_detach_restores_witness :
  ∃ e', (_ <- Router.attach client_session ;; Router.detach client_session)
          env_busy = (Ok tt, e')
        ∧ _session_id_to_session (Router.self e') = ∅
        ∧ _attached (Router.self e') = 1
        ∧ Router.factory e' = Router.factory env_busy.
Proof.
  destruct (attach_then_detach_restores env_busy client_session)
    as (e' & He' & Hreg & Hcnt & _ & Hfac & _).
  - vm_compute. discriminate.
  - vm_compute. reflexivity.
  - exists e'. split; [exact He'|]. split; [rewrite Hreg; reflexivity|].
    split; [rewrite Hcnt; reflexivity|exact Hfac].
Defined.

Lemma detach_frees_identifier_witness :
  _session_id_to_session
    (Router.self
       (snd (Router.detach client_session
               (snd (Router.attach client_session env_busy))))) !! 7001
  = None.
Proof.
  destruct (detach_frees_identifier
              (snd (Router.attach client_session env_busy))
              client_session client_session) as (Hreg & _ & _).
  - vm_compute. reflexivity.
  - rewrite Hreg. apply lookup_delete_eq.
Defined.

Lemma detach_after_teardown_raises_witness :
  fst (Router.detach client_session env_torn_down) = Raise AssertionError.
Proof.
  rewrite (detach_after_teardown_raises env_torn_down client_session).
  - reflexivity.
  - left. vm_compute. eauto.
  - vm_compute. reflexivity.
  - unfold live. intros Hin. apply elem_of_dom in Hin.
    vm_compute in Hin. destruct Hin as [o Ho]. discriminate.
Defined.

Lemma client_traffic_counter_is_registry_size_witness :
  counts_registry
    (Router.self
       (run_session_ops
          [do_attach client_session; do_attach client_session;
           do_detach client_session; do_detach client_session] env1)).
Proof.
  apply (client_traffic_counter_is_registry_size _ env1).
  - repeat constructor.
  - unfold counts_registry. vm_compute. reflexivity.
Defined.

Lemma all_registry_wf_world1 : all_registry_wf world1.
Proof.
  intros o r Ho id s Hs. destruct o as [|o]; [|vm_compute in Ho; discriminate].
  vm_compute in Ho. injection Ho as <-. vm_compute in Hs. discriminate.
Defined.

Lemma registered_sessions_are_clients_witness :
  all_registry_wf
    (run_ops false
       [op_attach 0%nat client_session; op_attach 0%nat internal_session;
        op_detach 0%nat internal_session] world1).
Proof.
  apply (registered_sessions_are_clients false _ world1).
  exact all_registry_wf_world1.
Defined.

Lemma start_realm_creates_witness :
  ∃ r : Router Rec Rec,
    fst (RouterFactory.start_realm false realm1 world0) = Ok 0%nat
    ∧ objects (snd (RouterFactory.start_realm false realm1 world0)) = [r]
    ∧ _store r = None
    ∧ _mqtt_payload_format r = Some "opaque".
Proof.
  destruct (start_realm_creates false realm1 world0)
    as (r & Hs & _ & _ & _ & Hstore & Hfmt & _).
  - apply not_elem_of_dom. reflexivity.
  - exact I.
  - intros f Hf. discriminate.
  - exists r. rewrite Hs. split; [reflexivity|]. split; [reflexivity|].
    split; [exact Hstore|exact Hfmt].
Defined.

Lemma start_realm_twice_refused_witness :
  RouterFactory.start_realm false realm1_xml world1
  = (Raise AssertionError, world1).
Proof.
  apply (start_realm_twice_refused false realm1 realm1_xml world0 0%nat world1).
  - reflexivity.
  - reflexivity.
Defined.

Lemma start_realm_unknown_store_type_witness :
  RouterFactory.start_realm true realm1_sqlite world0
  = (Raise (Exception "logic error"), world0).
Proof.
  apply (start_realm_unknown_store_type true realm1_sqlite
           {| store_type := "sqlite" |} world0).
  - apply not_elem_of_dom. reflexivity.
  - reflexivity.
  - discriminate.
  - discriminate.
Defined.

Lemma factory_lookups_agree_witness :
  RouterFactory.get "realm1" world1 = RouterFactory.__getitem__ "realm1" world1
  ∧ RouterFactory.__contains__ "realm2" world1 = (Ok false, world1).
Proof.
  destruct (factory_lookups_agree (B:=Rec) (D:=Rec) "realm1" world1) as (_ & _ & Hg).
  destruct (factory_lookups_agree (B:=Rec) (D:=Rec) "realm2" world1) as (Hi & Hc & _).
  split.
  - apply Hg. right. vm_compute. eauto.
  - rewrite Hc, Hi. reflexivity.
Defined.

Lemma start_realm_then_get_witness :
  RouterFactory.get "realm1" world1 = (Ok 0%nat, world1).
Proof.
  apply (start_realm_then_get false realm1 world0 0%nat world1). reflexivity.
Defined.

Lemma objects_world1 : objects world1 !! 0%nat = Some router1.
Proof. vm_compute. reflexivity. Defined.

Lemma routers_world1 : _routers (the_factory world1) !! "realm1" = Some 0%nat.
Proof. reflexivity. Defined.

Lemma factory_add_role_installs_witness :
  ∃ w', RouterFactory.add_role "realm1" backend_config world1 = (Ok tt, w')
        ∧ objects w'
          = [Router.with_roles
               <["backend" := RouterRole "backend" true]> router1].
Proof.
  destruct (factory_add_role_installs "realm1" backend_config world1
              0%nat router1)
    as (role & w' & Hadd & _ & _ & _ & Hrole & Hobj & _).
  - exact routers_world1.
  - exact objects_world1.
  - discriminate.
  - exists w'. split; [exact Hadd|]. rewrite Hobj.
    rewrite (Hrole eq_refl eq_refl). reflexivity.
Defined.

Lemma factory_add_role_refused_witness :
  RouterFactory.add_role "realm2" backend_config world1
  = (Raise AssertionError, world1)
  ∧ RouterFactory.add_role "realm1" trusted_config world1
    = (Raise (ReservedRole "add" "trusted"), world1).
Proof.
  destruct (factory_add_role_refused "realm2" backend_config world1) as [Hun _].
  destruct (factory_add_role_refused "realm1" trusted_config world1) as [_ Hres].
  split.
  - apply Hun. apply not_elem_of_dom. reflexivity.
  - apply (Hres 0%nat router1);
      [exact routers_world1|exact objects_world1|reflexivity].
Defined.

Lemma factory_drop_role_and_stop_realm_are_stubs_witness :
  ∃ w1 r1,
    RouterFactory.add_role "realm1" backend_config world1 = (Ok tt, w1)
    ∧ RouterFactory.drop_role "realm1" "backend" w1 = (Ok tt, w1)
    ∧ objects w1 !! 0%nat = Some r1
    ∧ is_Some (_roles r1 !! "backend").
Proof.
  destruct (factory_drop_role_and_stop_realm_are_stubs "realm1"
              backend_config world1 0%nat router1)
    as (w1 & r1 & Hadd & Hdrop & _ & Hobj & Hrole & _).
  - exact routers_world1.
  - exact objects_world1.
  - discriminate.
  - exists w1, r1. split; [exact Hadd|]. split; [exact Hdrop|].
    split; [exact Hobj|exact Hrole].
Defined.

Lemma onLastDetach_removes_only_that_realm_witness :
  fst (RouterFactory.onLastDetach router1 world1) = Ok tt
  ∧ _routers (the_factory (snd (RouterFactory.onLastDetach router1 world1)))
      !! "realm2" = None
  ∧ fst (RouterFactory.onLastDetach router1 world0) = Raise AssertionError.
Proof.
  destruct (onLastDetach_removes_only_that_realm router1 world1)
    as (Heq & Hother & _).
  destruct (onLastDetach_removes_only_that_realm router1 world0)
    as (Heq0 & _).
  split; [rewrite Heq; reflexivity|]. split.
  - rewrite (Hother "realm2"); [reflexivity|]. vm_compute. discriminate.
  - rewrite Heq0. reflexivity.
Defined.

Lemma sole_creation_path_witness :
  ∃ rr, op_factory_start_realm realm1 = op_factory_start_realm rr
        ∧ cfg_name (config rr) = "realm1".
Proof.
  destruct (sole_creation_path false (op_factory_start_realm realm1) world0
              "realm1") as (rr & Hop & Hname & _).
  - apply not_elem_of_dom. reflexivity.
  - apply elem_of_dom. vm_compute. eauto.
  - exists rr. split; [exact Hop|exact Hname].
Defined.
